(** * APR.py: control-sheet generator — verification of the field mapper

    A shallow embedding of [src/APR.py]: the merged-cell aware write
    ([write_into_merged]) and the template population ([populate_fiche]),
    together with the parts of pandas and openpyxl those two functions
    go through (cell values, [pd.isna], [Series.get], coordinate strings,
    merged ranges, read-only merged cells). *)

From Stdlib Require Import ZArith String Ascii List Lia Bool Permutation.
From Stdlib Require Import DecimalString DecimalZ.
From Stdlib Require Floats.SpecFloat.
From stdpp Require Import base option list gmap strings fin_maps.

Import ListNotations.
Local Open Scope string_scope.
Local Open Scope Z_scope.

(** ** Python values held by cells *)

Module Py.

(** [pd.Timestamp] / [datetime.datetime]: calendar fields plus time of day. *)
Record Timestamp := mkTimestamp {
  ts_year : Z; ts_month : Z; ts_day : Z;
  ts_hour : Z; ts_minute : Z; ts_second : Z;
  ts_microsecond : Z; ts_nanosecond : Z }.

(** [datetime.date]: calendar fields only. *)
Record Date := mkDate { d_year : Z; d_month : Z; d_day : Z }.

Notation pyfloat := SpecFloat.spec_float.

Inductive value :=
| VNone
| VBool (b : bool)
| VInt (n : Z)
| VFloat (f : pyfloat)
| VStr (s : string)
| VNaT
| VTimestamp (t : Timestamp)
| VDate (d : Date).

Notation VNaN := (VFloat SpecFloat.S754_nan).

#[global] Instance Timestamp_eq_dec : EqDecision Timestamp.
Proof. solve_decision. Defined.
#[global] Instance Date_eq_dec : EqDecision Date.
Proof. solve_decision. Defined.
#[global] Instance pyfloat_eq_dec : EqDecision pyfloat.
Proof. solve_decision. Defined.
#[global] Instance value_eq_dec : EqDecision value.
Proof. solve_decision. Defined.

(** [pd.isna(v)] on a scalar: [None], float NaN and [NaT]. *)
Definition isna (v : value) : bool :=
  match v with
  | VNone | VNaT | VNaN => true
  | _ => false
  end.

Definition notna (v : value) : bool := negb (isna v).

(** [bool(v)], as the [or] chain of the identifier tests it. *)
Definition truthy (v : value) : bool :=
  match v with
  | VNone => false
  | VBool b => b
  | VInt n => negb (n =? 0)
  | VFloat (SpecFloat.S754_zero _) => false
  | VFloat _ => true
  | VStr s => negb (String.eqb s "")
  | VNaT | VTimestamp _ | VDate _ => true
  end.

(** [a or b] *)
Definition py_or (a b : value) : value := if truthy a then a else b.

(** Decimal digits of an integer, as [str(int)] prints them. *)
Definition str_Z (n : Z) : string := NilZero.string_of_int (Z.to_int n).

Fixpoint zeros (n : nat) : string :=
  match n with O => "" | S k => String "0" (zeros k) end.

(** ["%0{w}d"] for a non-negative field. *)
Definition pad0 (w : nat) (n : Z) : string :=
  let s := str_Z n in zeros (w - String.length s) +:+ s.

Definition str_date (y m d : Z) : string :=
  pad0 4 y +:+ "-" +:+ pad0 2 m +:+ "-" +:+ pad0 2 d.

(** [str(Timestamp)]: ISO format with a space separator; the fraction is
    printed only when it is not zero. *)
Definition str_timestamp (t : Timestamp) : string :=
  str_date (ts_year t) (ts_month t) (ts_day t) +:+ " " +:+
  pad0 2 (ts_hour t) +:+ ":" +:+ pad0 2 (ts_minute t) +:+ ":" +:+ pad0 2 (ts_second t) +:+
  (if negb (ts_nanosecond t =? 0)
   then "." +:+ pad0 6 (ts_microsecond t) +:+ pad0 3 (ts_nanosecond t)
   else if negb (ts_microsecond t =? 0)
   then "." +:+ pad0 6 (ts_microsecond t)
   else "").

(** The calendar fields of a [Timestamp]. *)
Definition date_of (t : Timestamp) : Date :=
  {| d_year := ts_year t; d_month := ts_month t; d_day := ts_day t |}.

Definition is_leap (y : Z) : bool :=
  ((y mod 4 =? 0) && negb (y mod 100 =? 0)) || (y mod 400 =? 0).

Definition days_in_month (y m : Z) : Z :=
  if m =? 2 then (if is_leap y then 29 else 28)
  else if (m =? 4) || (m =? 6) || (m =? 9) || (m =? 11) then 30
  else 31.

(** The check of the [datetime.date(year, month, day)] constructor:
    [MINYEAR = 1], [MAXYEAR = 9999]. *)
Definition date_in_range (y m d : Z) : bool :=
  (1 <=? y) && (y <=? 9999) && (1 <=? m) && (m <=? 12) &&
  (1 <=? d) && (d <=? days_in_month y m).

(** [Timestamp.date()]: builds [datetime.date(self.year, self.month,
    self.day)]; pandas turns the [ValueError] of a date outside
    [datetime]'s range (a [Timestamp] of year 0, say) into
    [NotImplementedError], here [None]. *)
Definition timestamp_date (t : Timestamp) : option Date :=
  if date_in_range (ts_year t) (ts_month t) (ts_day t)
  then Some (date_of t)
  else None.

(** What the interpreter and pandas contribute and this repository does
    not define: the digits [repr] prints for a float that is not NaN, and
    the conversion [pd.to_datetime] applies to a scalar that is not
    already a [Timestamp] (a string goes through the date parser, a number
    is an offset from the epoch): [Some (Some t)] is the [Timestamp] it
    returns, [Some None] is [NaT], [None] is the exception it raises. *)
Class Runtime := {
  float_repr : pyfloat -> string;
  convert_scalar : value -> option (option Timestamp) }.

Section WithRuntime.
Context {rt : Runtime}.

(** [str(v)] *)
Definition str (v : value) : string :=
  match v with
  | VNone => "None"
  | VBool true => "True"
  | VBool false => "False"
  | VInt n => str_Z n
  | VNaN => "nan"
  | VFloat f => float_repr f
  | VStr s => s
  | VNaT => "NaT"
  | VTimestamp t => str_timestamp t
  | VDate d => str_date (d_year d) (d_month d) (d_day d)
  end.

(** [pd.to_datetime(v)] for a [v] that is not null. *)
Definition to_datetime (v : value) : option (option Timestamp) :=
  match v with
  | VTimestamp t => Some (Some t)
  | _ => convert_scalar v
  end.

End WithRuntime.

End Py.

Import Py.

(** ** Exceptions and outcomes *)

Inductive exn :=
| ValueError (msg : string)
| KeyError (key : string)
| IndexError
| AttributeError
| ConversionError
| NotImplementedError.

Inductive outcome (A : Type) :=
| Ok (a : A)
| Raise (e : exn).
Arguments Ok {A} a.
Arguments Raise {A} e.

(** ** The openpyxl worksheet *)

Module Xl.

(** *** Column letters and coordinate strings ([openpyxl.utils.cell]) *)

Fixpoint column_letters (fuel : nat) (col_idx : Z) (acc : string) : string :=
  match fuel with
  | O => acc
  | S k =>
      if col_idx <=? 0 then acc
      else
        let q := col_idx / 26 in
        let r := col_idx mod 26 in
        let '(q', r') := if r =? 0 then (q - 1, 26) else (q, r) in
        column_letters k q' (String (ascii_of_nat (Z.to_nat (r' + 64))) acc)
  end.

(** [get_column_letter]: 1 to 18278 is ["A"] to ["ZZZ"]; [None] is its
    [ValueError]. *)
Definition get_column_letter (col_idx : Z) : option string :=
  if (1 <=? col_idx) && (col_idx <=? 18278)
  then Some (column_letters 3 col_idx "")
  else None.

Definition is_upper (a : ascii) : bool :=
  let n := nat_of_ascii a in (65 <=? n)%nat && (n <=? 90)%nat.
Definition is_lower (a : ascii) : bool :=
  let n := nat_of_ascii a in (97 <=? n)%nat && (n <=? 122)%nat.
Definition is_letter (a : ascii) : bool := is_upper a || is_lower a.

Definition upper (a : ascii) : ascii :=
  if is_lower a then ascii_of_nat (nat_of_ascii a - 32) else a.

Definition letter_index (a : ascii) : Z := Z.of_nat (nat_of_ascii (upper a)) - 64.

Fixpoint all_letters (s : string) : bool :=
  match s with
  | EmptyString => true
  | String a r => is_letter a && all_letters r
  end.

Fixpoint column_value (s : string) (acc : Z) : Z :=
  match s with
  | EmptyString => acc
  | String a r => column_value r (26 * acc + letter_index a)
  end.

(** [column_index_from_string]: one to three letters, either case. *)
Definition column_index_from_string (s : string) : option Z :=
  if all_letters s && (1 <=? String.length s)%nat && (String.length s <=? 3)%nat
  then Some (column_value s 0)
  else None.

Definition strip_dollar (s : string) : string :=
  match s with
  | String "$" r => r
  | _ => s
  end.

Fixpoint span_letters (s : string) : string * string :=
  match s with
  | EmptyString => (EmptyString, EmptyString)
  | String a r =>
      if is_letter a
      then let '(l, d) := span_letters r in (String a l, d)
      else (EmptyString, s)
  end.

(** A single-cell reference [^[$]?([A-Za-z]{1,3})[$]?(\d+)$], in ASCII,
    read as (row, column): the ten keys of [assignments], the grid cells
    and the anchors [get_column_letter] and [min_row] spell are all of
    this form.  [None] is the [ValueError] openpyxl raises for a key
    outside the reference grammar or with row 0.  A key that spells a
    range, a column or a row (['N1:O1'], ['A'], ['1']) is [None] as well,
    although openpyxl reads it as a range: [populate_fiche] passes no
    such key, and what is proved of [write_into_merged] alone is stated
    for cell references, or for keys openpyxl's grammar cannot match. *)
Definition coordinate_to_tuple (coord : string) : option (Z * Z) :=
  let '(cs, rest) := span_letters (strip_dollar coord) in
  match column_index_from_string cs, NilEmpty.uint_of_string (strip_dollar rest) with
  | Some col, Some u =>
      let row := Z.of_uint u in
      if 1 <=? row then Some (row, col) else None
  | _, _ => None
  end.

(** *** Merged ranges *)

Record CellRange := mkRange {
  min_col : Z; min_row : Z; max_col : Z; max_row : Z }.

#[global] Instance CellRange_eq_dec : EqDecision CellRange.
Proof. solve_decision. Defined.

(** [coord in rng], on the parsed coordinate. *)
Definition range_contains (rng : CellRange) (rc : Z * Z) : bool :=
  (min_row rng <=? rc.1) && (rc.1 <=? max_row rng) &&
  (min_col rng <=? rc.2) && (rc.2 <=? max_col rng).

Definition anchor (rng : CellRange) : Z * Z := (min_row rng, min_col rng).

(** [f"{get_column_letter(rng.min_col)}{rng.min_row}"] *)
Definition anchor_coordinate (rng : CellRange) : option string :=
  match get_column_letter (min_col rng) with
  | Some letters => Some (letters +:+ str_Z (min_row rng))
  | None => None
  end.

(** *** Worksheets *)

Record Worksheet := mkWorksheet {
  cells : gmap (Z * Z) value;
  merged_cells : list CellRange }.

(** A cell of a merged range other than its top-left one is a
    [MergedCell] in a loaded workbook: its value cannot be set. *)
Definition is_merged_cell (ranges : list CellRange) (rc : Z * Z) : bool :=
  existsb (fun rng => range_contains rng rc && negb (bool_decide (rc = anchor rng))) ranges.

Definition set_cell (rc : Z * Z) (v : value) (ws : Worksheet) : Worksheet :=
  {| cells := <[rc := v]> (cells ws); merged_cells := merged_cells ws |}.

(** Statements that act on the worksheet: the outcome and the worksheet
    as the statement leaves it, also when it raises. *)
Definition W (A : Type) : Type := Worksheet -> outcome A * Worksheet.

Definition ret {A} (a : A) : W A := fun ws => (Ok a, ws).
Definition raise {A} (e : exn) : W A := fun ws => (Raise e, ws).
Definition bind {A B} (m : W A) (k : A -> W B) : W B :=
  fun ws =>
    match m ws with
    | (Ok a, ws') => k a ws'
    | (Raise e, ws') => (Raise e, ws')
    end.

Notation "m1 ;;; m2" := (bind m1 (fun _ => m2))
  (at level 100, m2 at level 200, right associativity).

(** [ws[key] = v] *)
Definition setitem (key : string) (v : value) : W unit :=
  fun ws =>
    match coordinate_to_tuple key with
    | None => (Raise (ValueError key), ws)
    | Some rc =>
        if is_merged_cell (merged_cells ws) rc
        then (Raise AttributeError, ws)
        else (Ok tt, set_cell rc v ws)
    end.

End Xl.

Import Xl.

(** ** The pandas tables *)

Module Pd.

(** A table as [read_excel] returns it: the header and the data rows.  A
    row shorter than the header reads as missing cells (NaN), which is
    how [read_excel] pads it. *)
Record DataFrame := mkDataFrame {
  columns : list string;
  rows : list (list value) }.

(** One row of a table ([df.iloc[i]]): labels and values side by side. *)
Record Series := mkSeries {
  index : list string;
  values : list value }.

(** [df.empty]: some axis has length 0. *)
Definition empty (df : DataFrame) : bool :=
  match columns df, rows df with
  | [], _ | _, [] => true
  | _, _ => false
  end.

(** [len(df)] *)
Definition len (df : DataFrame) : Z := Z.of_nat (length (rows df)).

(** [df.iloc[i]]; a negative [i] counts from the end, [None] is the
    [IndexError] of a position out of bounds. *)
Definition iloc (df : DataFrame) (i : Z) : option Series :=
  let n := len df in
  let j := if i <? 0 then n + i else i in
  if (0 <=? j) && (j <? n)
  then mkSeries (columns df) <$> rows df !! Z.to_nat j
  else None.

Fixpoint lookup_label (labels : list string) (vals : list value) (key : string)
  : option value :=
  match labels with
  | [] => None
  | k :: ks =>
      if String.eqb k key then Some (hd VNaN vals)
      else lookup_label ks (tl vals) key
  end.

(** [s.get(key)], with the default [None] for a label that is absent. *)
Definition get (s : Series) (key : string) : value :=
  default VNone (lookup_label (index s) (values s) key).

(** [c in df.columns] *)
Definition has_column (df : DataFrame) (c : string) : bool :=
  existsb (String.eqb c) (columns df).

(** [df[keep]], for labels that are columns of [df]. *)
Definition select (df : DataFrame) (keep : list string) : DataFrame :=
  {| columns := keep;
     rows := map (fun r => map (fun k => default VNaN (lookup_label (columns df) r k)) keep)
                 (rows df) |}.

Fixpoint assoc (m : list (string * string)) (k : string) : option string :=
  match m with
  | [] => None
  | (k', v) :: rest => if String.eqb k' k then Some v else assoc rest k
  end.

(** [df.rename(columns=m)] *)
Definition rename (df : DataFrame) (m : list (string * string)) : DataFrame :=
  {| columns := map (fun c => default c (assoc m c)) (columns df);
     rows := rows df |}.

End Pd.

(** ** APR.py *)

Module APR.

Definition MAX_PLAN_SLOTS : Z := 6.

Definition SHEET : string := "Fiche de contrôle".

(** [wb]: the sheets of a workbook by title. *)
Notation Workbook := (gmap string Worksheet).

(** [for x in xs: body(x)]; an exception ends the loop. *)
Fixpoint for_each {A} (xs : list A) (body : A -> W unit) : W unit :=
  match xs with
  | [] => ret tt
  | x :: rest => body x ;;; for_each rest body
  end.

(** The [for rng in ws.merged_cells.ranges] loop of [write_into_merged],
    with the write to [coord] that follows it. *)
Fixpoint write_scan (ranges : list CellRange) (coord : string) (v : value) : W unit :=
  match ranges with
  | [] => setitem coord v
  | rng :: rest =>
      match coordinate_to_tuple coord with
      | None => raise (ValueError coord)
      | Some rc =>
          if range_contains rng rc
          then match anchor_coordinate rng with
               | Some a => setitem a v
               | None => raise (ValueError "Invalid column index")
               end
          else write_scan rest coord v
      end
  end.

Definition write_into_merged (coord : string) (v : value) : W unit :=
  fun ws =>
    match v with
    | VNone => (Ok tt, ws)
    | _ => write_scan (merged_cells ws) coord v ws
    end.

Definition plan_cells    : list string := ["G9"; "I9"; "K9"; "M9"; "O9"; "Q9"].
Definition plus_cells    : list string := ["G10"; "I10"; "K10"; "M10"; "O10"; "Q10"].
Definition minus_cells   : list string := ["G11"; "I11"; "K11"; "M11"; "O11"; "Q11"].
Definition moyenne_cells : list string := ["G12"; "I12"; "K12"; "M12"; "O12"; "Q12"].
Definition tools_cells   : list string := ["F14"; "H14"; "J14"; "L14"; "N14"; "P14"].

Definition col_map : list (string * string) :=
  [ ("Côtes PLAN", "cote");
    ("Tolérance supérieure", "plus");
    ("Tolérance inférieure", "minus");
    ("Côtes MOYENNES", "moy");
    ("Outil de mesure", "outil") ].

(** [if pd.notna(v): ws[cells[i]] = v] *)
Definition write_slot (cells : list string) (i : nat) (v : value) : W unit :=
  if notna v
  then match cells !! i with
       | Some key => setitem key v
       | None => raise IndexError
       end
  else ret tt.

(** The body of the loop over the line records. *)
Definition fill_slot (dfL : Pd.DataFrame) (i : nat) : W unit :=
  match Pd.iloc dfL (Z.of_nat i) with
  | None => raise IndexError
  | Some r =>
      let v_cote  := Pd.get r "cote" in
      let v_plus  := Pd.get r "plus" in
      let v_minus := Pd.get r "minus" in
      let v_moy   := Pd.get r "moy" in
      let v_outil := Pd.get r "outil" in
      write_slot plan_cells i v_cote ;;;
      write_slot plus_cells i v_plus ;;;
      write_slot minus_cells i v_minus ;;;
      write_slot moyenne_cells i v_moy ;;;
      write_slot tools_cells i v_outil
  end.

(** [keep = [c for c in col_map if c in df_lines.columns]] *)
Definition keep (df_lines : Pd.DataFrame) : list string :=
  List.filter (Pd.has_column df_lines) (map fst col_map).

(** Lines 108 to 122: the measurement grid. *)
Definition fill_grid (df_lines : Pd.DataFrame) (max_plan : Z) : W unit :=
  match keep df_lines with
  | [] => ret tt
  | ks =>
      let dfL := Pd.rename (Pd.select df_lines ks) col_map in
      for_each (seq 0 (Z.to_nat (Z.min max_plan (Pd.len dfL)))) (fill_slot dfL)
  end.

Section WithRuntime.
Context {rt : Runtime}.

(** [get_val] *)
Definition get_val (row : Pd.Series) (col_name : string) : value :=
  let v := Pd.get row col_name in
  if isna v then VNone else v.

(** [pd.to_datetime(get_val("Date de création")).date()
     if pd.notna(get_val("Date de création")) else None] *)
Definition creation_date (row : Pd.Series) : outcome value :=
  let v := get_val row "Date de création" in
  if notna v
  then match to_datetime v with
       | Some (Some t) =>
           match timestamp_date t with
           | Some d => Ok (VDate d)
           | None => Raise NotImplementedError
           end
       | Some None => Ok VNaT
       | None => Raise ConversionError
       end
  else Ok VNone.

(** The [assignments] dictionary, in the order of its literal. *)
Definition assignments (row : Pd.Series) : outcome (list (string * value)) :=
  match creation_date row with
  | Raise e => Raise e
  | Ok d =>
      Ok [ ("M1", get_val row "Nom du client");
           ("T1", get_val row "Numéro d' OF");
           ("K2", get_val row "Nom du plan");
           ("T2", get_val row "Indice plan");
           ("X2", d);
           ("X4", get_val row "Matière");
           ("X5", get_val row "Couleur");
           ("X6", get_val row "Tolérance Générale");
           ("X7", get_val row "RA mini");
           ("X8", get_val row "Cassage Angles Vifs") ]
  end.

(** Lines 90 and 91. *)
Definition fill_header (asg : list (string * value)) : W unit :=
  for_each asg (fun cv => write_into_merged cv.1 cv.2).

(** [str(row.get("Numéro d' OF") or row.get("Koncile ID") or "")] *)
Definition num_of (row : Pd.Series) : string :=
  str (py_or (py_or (Pd.get row "Numéro d' OF") (Pd.get row "Koncile ID")) (VStr "")).

Definition file_name (row : Pd.Series) : string :=
  "Fiche de Contrôle - OF n° " +:+ num_of row +:+ ".xlsx".

(** [populate_fiche], from the two tables [read_excel] returned.  The
    result pairs what the call returns or raises with the workbook it
    holds in memory at that point: [None] while the template has not been
    loaded.  The bytes [wb.save] produces are taken as the workbook they
    encode. *)
Definition populate_fiche (df_gen df_lines : Pd.DataFrame) (template : Workbook)
    (row_index max_plan : Z) : outcome (Workbook * string) * option Workbook :=
  if Pd.empty df_gen
  then (Raise (ValueError "Sheet 'Dossier Technique_general' is empty."), None)
  else
    match Pd.iloc df_gen row_index with
    | None => (Raise IndexError, None)
    | Some row =>
        let name := file_name row in
        let wb := template in
        match wb !! SHEET with
        | None => (Raise (KeyError SHEET), Some wb)
        | Some ws =>
            match assignments row with
            | Raise e => (Raise e, Some wb)
            | Ok asg =>
                match (fill_header asg ;;; fill_grid df_lines max_plan) ws with
                | (Ok _, ws') =>
                    let wb' := <[SHEET := ws']> wb in
                    (Ok (wb', name), Some wb')
                | (Raise e, ws') => (Raise e, Some (<[SHEET := ws']> wb))
                end
            end
        end
    end.

End WithRuntime.

End APR.

(** ** A runtime to evaluate examples with

    Floats are printed by their exact decimal expansion (which is what
    [repr] prints when that expansion is short, as for 0.5 or 1234.0),
    and [pd.to_datetime] converts the strings [YYYY-MM-DD] and
    [YYYY-MM-DD HH:MM:SS] only: pandas reads more formats than this.  The
    year goes from 0000 to 9999: the year 0000 gives a [Timestamp] that
    [datetime.date] cannot hold. *)

Module Ref.

Fixpoint strip_zeros (s : string) : string :=
  match s with
  | EmptyString => EmptyString
  | String a r =>
      match strip_zeros r with
      | EmptyString => if Ascii.eqb a "0" then EmptyString else String a EmptyString
      | r' => String a r'
      end
  end.

Definition exact_repr (f : pyfloat) : string :=
  match f with
  | SpecFloat.S754_nan => "nan"
  | SpecFloat.S754_infinity s => if s then "-inf" else "inf"
  | SpecFloat.S754_zero s => if s then "-0.0" else "0.0"
  | SpecFloat.S754_finite s m e =>
      let sign := if s then "-" else "" in
      if 0 <=? e then sign +:+ str_Z (Z.pos m * 2 ^ e) +:+ ".0"
      else
        let k := Z.to_nat (- e) in
        let ip := Z.pos m / 2 ^ (- e) in
        let fp := Z.pos m mod 2 ^ (- e) in
        let digits := strip_zeros (pad0 k (fp * 5 ^ (- e))) in
        sign +:+ str_Z ip +:+ "." +:+
        (match digits with EmptyString => "0" | _ => digits end)
  end.

Definition field (s : string) (start n : nat) : option Z :=
  let t := String.substring start n s in
  if bool_decide (String.length t = n) && negb (String.eqb t "")
  then Z.of_uint <$> NilEmpty.uint_of_string t
  else None.

Definition sep_at (s : string) (i : nat) (c : ascii) : bool :=
  bool_decide (String.get i s = Some c).

Definition parse_iso (s : string) : option Timestamp :=
  let n := String.length s in
  match field s 0 4, field s 5 2, field s 8 2 with
  | Some y, Some m, Some d =>
      if sep_at s 4 "-" && sep_at s 7 "-" &&
         (1 <=? m) && (m <=? 12) && (1 <=? d) && (d <=? days_in_month y m)
      then
        if (n =? 10)%nat then Some (mkTimestamp y m d 0 0 0 0 0)
        else
          match field s 11 2, field s 14 2, field s 17 2 with
          | Some hh, Some mm, Some ss =>
              if (n =? 19)%nat && sep_at s 10 " " && sep_at s 13 ":" && sep_at s 16 ":" &&
                 (hh <? 24) && (mm <? 60) && (ss <? 60)
              then Some (mkTimestamp y m d hh mm ss 0 0)
              else None
          | _, _, _ => None
          end
      else None
  | _, _, _ => None
  end.

Definition iso_runtime : Runtime := {|
  float_repr := exact_repr;
  convert_scalar v :=
    match v with
    | VStr s => Some <$> parse_iso s
    | _ => None
    end |}.

End Ref.

Import APR.

(** ** Specification vocabulary *)

Module Spec.

Definition is_digit (a : ascii) : bool :=
  let n := nat_of_ascii a in (48 <=? n)%nat && (n <=? 57)%nat.

Definition column_round_trips (c : Z) : bool :=
  match get_column_letter c with
  | Some l =>
      all_letters l && negb (String.eqb l "") &&
      bool_decide (column_index_from_string l = Some c)
  | None => false
  end.

(** The letter of a digit 1 to 26 of a column name. *)
Definition letter (r : Z) : ascii := ascii_of_nat (Z.to_nat (r + 64)).

(** The resolver of the specification: the anchor of the first range
    that contains the cell, the cell itself when there is none. *)
Definition resolve (ranges : list CellRange) (rc : Z * Z) : Z * Z :=
  match find (fun rng => range_contains rng rc) ranges with
  | Some rng => anchor rng
  | None => rc
  end.

(** The top-left corner of a range is a cell a coordinate string names. *)
Definition valid_anchor (rng : CellRange) : Prop :=
  1 <= min_col rng <= 18278 /\ 1 <= min_row rng.

(** Merged ranges do not overlap: a cell belongs to at most one. *)
Definition at_most_one_range (ranges : list CellRange) : Prop :=
  forall r1 r2 rc, In r1 ranges -> In r2 ranges ->
    range_contains r1 rc = true -> range_contains r2 rc = true -> r1 = r2.

Definition template_contract (ws : Worksheet) : Prop :=
  Forall valid_anchor (merged_cells ws) /\ at_most_one_range (merged_cells ws).

End Spec.
Import Spec.

(** ** The measurement grid, as the specification describes it *)

Module Grid.

(** The five attributes of a line record. *)
Inductive attr := Cote | Plus | Minus | Moy | Outil.

#[global] Instance attr_eq_dec : EqDecision attr.
Proof. solve_decision. Defined.

(** The column of the line table an attribute is read from. *)
Definition attr_column (a : attr) : string :=
  match a with
  | Cote => "Côtes PLAN"
  | Plus => "Tolérance supérieure"
  | Minus => "Tolérance inférieure"
  | Moy => "Côtes MOYENNES"
  | Outil => "Outil de mesure"
  end.

(** Its name after the renaming by [col_map]. *)
Definition attr_key (a : attr) : string :=
  match a with
  | Cote => "cote" | Plus => "plus" | Minus => "minus" | Moy => "moy" | Outil => "outil"
  end.

(** The coordinates of its slots. *)
Definition attr_cells (a : attr) : list string :=
  match a with
  | Cote => plan_cells | Plus => plus_cells | Minus => minus_cells
  | Moy => moyenne_cells | Outil => tools_cells
  end.

(** The cell of slot [i]: rows 9 to 12 start at column G and row 14 at
    column F, one slot every second column. *)
Definition slot_cell (a : attr) (i : nat) : Z * Z :=
  match a with
  | Cote  => (9,  7 + 2 * Z.of_nat i)
  | Plus  => (10, 7 + 2 * Z.of_nat i)
  | Minus => (11, 7 + 2 * Z.of_nat i)
  | Moy   => (12, 7 + 2 * Z.of_nat i)
  | Outil => (14, 6 + 2 * Z.of_nat i)
  end.

(** [df_lines.iloc[i].get(column)]: the value of an attribute in line
    record [i], [None] when the table has no such column or record. *)
Definition line_value (df : Pd.DataFrame) (i : nat) (a : attr) : value :=
  match Pd.iloc df (Z.of_nat i) with
  | Some r => Pd.get r (attr_column a)
  | None => VNone
  end.

(** One grid write: skipped for a value that is null. *)
Definition put (a : attr) (i : nat) (v : value) (ws : Worksheet) : Worksheet :=
  if notna v then set_cell (slot_cell a i) v ws else ws.

Definition slot_result (df : Pd.DataFrame) (i : nat) (ws : Worksheet) : Worksheet :=
  put Outil i (line_value df i Outil)
    (put Moy i (line_value df i Moy)
      (put Minus i (line_value df i Minus)
        (put Plus i (line_value df i Plus)
          (put Cote i (line_value df i Cote) ws)))).

(** The worksheet after the first [k] line records went to slots
    [0] to [k - 1]. *)
Definition grid_result (df : Pd.DataFrame) (k : nat) (ws : Worksheet) : Worksheet :=
  foldl (fun w i => slot_result df i w) ws (seq 0 k).

(** The number of slots the loop runs over. *)
Definition slots_used (df : Pd.DataFrame) (max_plan : Z) : nat :=
  Z.to_nat (Z.min max_plan (Pd.len df)).

(** The table region of the template is made of plain cells. *)
Definition grid_unmerged (ws : Worksheet) : Prop :=
  forall a i, (i < 6)%nat -> is_merged_cell (merged_cells ws) (slot_cell a i) = false.

End Grid.
Import Grid.

(** ** Decision procedures for the template contract *)

Module Check.

Definition valid_anchorb (rng : CellRange) : bool :=
  (1 <=? min_col rng) && (min_col rng <=? 18278) && (1 <=? min_row rng).

(** Two rectangles share a cell. *)
Definition overlap (r1 r2 : CellRange) : bool :=
  (Z.max (min_row r1) (min_row r2) <=? Z.min (max_row r1) (max_row r2)) &&
  (Z.max (min_col r1) (min_col r2) <=? Z.min (max_col r1) (max_col r2)).

Fixpoint pairwise_disjoint (ranges : list CellRange) : bool :=
  match ranges with
  | [] => true
  | r :: rest => forallb (fun r' => negb (overlap r r')) rest && pairwise_disjoint rest
  end.

Definition template_contractb (ws : Worksheet) : bool :=
  forallb valid_anchorb (merged_cells ws) && pairwise_disjoint (merged_cells ws).

Definition all_attrs : list attr := [Cote; Plus; Minus; Moy; Outil].

Definition grid_unmergedb (ws : Worksheet) : bool :=
  forallb (fun a =>
    forallb (fun i => negb (is_merged_cell (merged_cells ws) (slot_cell a i))) (seq 0 6))
    all_attrs.

End Check.
Import Check.

(** ** Values Python takes as false *)

Module Falsy.

(** [None], the empty string, and zero as an [int], a [bool] or a
    [float]. *)
Definition falsy_value (v : value) : Prop :=
  v = VNone \/ v = VStr "" \/ v = VInt 0 \/ v = VBool false \/
  exists s, v = VFloat (SpecFloat.S754_zero s).

End Falsy.
Import Falsy.

(** ** Sample inputs *)

Module Sample.

Definition general_columns : list string :=
  [ "Koncile ID"; "Numéro d' OF"; "Nom du client"; "Nom du plan"; "Indice plan";
    "Date de création"; "Matière"; "Couleur"; "Tolérance Générale"; "RA mini";
    "Cassage Angles Vifs" ].

Definition half : pyfloat := SpecFloat.S754_finite false 1 (-1).

Definition general_row (of_number date : value) : list value :=
  [ VStr "K7"; of_number; VStr "ACME"; VStr "P-12"; VStr "B"; date;
    VStr "Alu"; VNaN; VFloat half; VNaN; VStr "0.2" ].

Definition morning : Timestamp := mkTimestamp 2024 1 5 10 30 0 0 0.

(** A record with its work-order number and a creation time. *)
Definition gen_ok : Pd.DataFrame :=
  Pd.mkDataFrame general_columns [general_row (VInt 4711) (VTimestamp morning)].

(** The work-order cell is empty: [read_excel] returns NaN for it. *)
Definition gen_nan : Pd.DataFrame :=
  Pd.mkDataFrame general_columns [general_row VNaN (VTimestamp morning)].

(** The creation date is text that is not a date. *)
Definition gen_bad_date : Pd.DataFrame :=
  Pd.mkDataFrame general_columns [general_row (VInt 4711) (VStr "pas une date")].

(** A header and no data row. *)
Definition gen_empty : Pd.DataFrame := Pd.mkDataFrame general_columns [].

Definition line_columns : list string :=
  [ "Côtes PLAN"; "Tolérance supérieure"; "Tolérance inférieure"; "Côtes MOYENNES";
    "Outil de mesure" ].

Definition line (n : Z) (tool : value) : list value :=
  [ VInt n; VFloat half; VFloat half; VInt n; tool ].

(** Three line records; the second has no measuring tool. *)
Definition lines3 : Pd.DataFrame :=
  Pd.mkDataFrame line_columns [line 10 (VStr "PAC"); line 20 VNaN; line 30 (VStr "MMT")].

(** The same records in a table without the measuring-tool column. *)
Definition lines_no_tool : Pd.DataFrame :=
  Pd.mkDataFrame
    [ "Côtes PLAN"; "Tolérance supérieure"; "Tolérance inférieure"; "Côtes MOYENNES" ]
    [ [VInt 10; VFloat half; VFloat half; VInt 10];
      [VInt 20; VFloat half; VFloat half; VInt 20] ].

(** Seven line records. *)
Definition lines7 : Pd.DataFrame :=
  Pd.mkDataFrame line_columns
    (map (fun n => line n (VStr "PAC")) [10; 20; 30; 40; 50; 60; 70]).

(** The header of a template: M1:S1 and X2:Z3 are merged. *)
Definition client_range : CellRange := mkRange 13 1 19 1.
Definition date_range : CellRange := mkRange 24 2 26 3.

Definition sheet : Worksheet :=
  mkWorksheet {[ (1, 11) := VStr "CLIENT :" ]} [client_range; date_range].

(** The same sheet, its merged ranges met in the other order. *)
Definition sheet' : Worksheet :=
  mkWorksheet {[ (1, 11) := VStr "CLIENT :" ]} [date_range; client_range].

Definition template : Workbook := {[ SHEET := sheet ]}.
Definition template' : Workbook := {[ SHEET := sheet' ]}.

Definition first_row (df : Pd.DataFrame) : Pd.Series :=
  Pd.mkSeries (Pd.columns df) (hd [] (Pd.rows df)).

(** The assignments of [gen_ok]: colour and roughness are empty. *)
Definition asg_ok : list (string * value) :=
  [ ("M1", VStr "ACME"); ("T1", VInt 4711); ("K2", VStr "P-12"); ("T2", VStr "B");
    ("X2", VDate (mkDate 2024 1 5));
    ("X4", VStr "Alu"); ("X5", VNone); ("X6", VFloat half); ("X7", VNone);
    ("X8", VStr "0.2") ].

End Sample.

(** ** Two copies of one template *)

Module Copies.

(** Two worksheets with the same cells and the same merged ranges, which
    a loop over [ws.merged_cells.ranges] may meet in different orders. *)
Definition same_sheet (ws1 ws2 : Worksheet) : Prop :=
  cells ws1 = cells ws2 /\ Permutation (merged_cells ws1) (merged_cells ws2).

Definition same_workbook (wb1 wb2 : Workbook) : Prop :=
  forall title, option_Forall2 same_sheet (wb1 !! title) (wb2 !! title).

(** Two calls end alike: the same exception, or the same file name with
    workbooks that hold the same cells. *)
Definition same_result (r1 r2 : outcome (Workbook * string)) : Prop :=
  match r1, r2 with
  | Ok (wb1, n1), Ok (wb2, n2) => n1 = n2 /\ same_workbook wb1 wb2
  | Raise e1, Raise e2 => e1 = e2
  | _, _ => False
  end.

Definition related (ws1 ws2 : Worksheet) : Prop :=
  same_sheet ws1 ws2 /\ template_contract ws1 /\ template_contract ws2.

(** A statement that cannot tell two related worksheets apart. *)
Definition respects {A} (m : W A) : Prop :=
  forall ws1 ws2, related ws1 ws2 ->
    (m ws1).1 = (m ws2).1 /\ related (m ws1).2 (m ws2).2.

End Copies.
Import Copies.

(** ** The header writes, as the specification describes them *)

Module Header.

(** One scalar write: nothing for [None], else the value goes to the
    resolved cell of the coordinate. *)
Definition write_result (coord : string) (v : value) (ws : Worksheet) : Worksheet :=
  match coordinate_to_tuple coord with
  | Some rc =>
      if bool_decide (v = VNone) then ws
      else set_cell (resolve (merged_cells ws) rc) v ws
  | None => ws
  end.

(** The worksheet after the assignments were written in their order. *)
Definition header_result (asg : list (string * value)) (ws : Worksheet) : Worksheet :=
  foldl (fun w cv => write_result cv.1 cv.2 w) ws asg.

(** A coordinate of the header block: a cell of rows 1 to 8. *)
Definition header_key (coord : string) : Prop :=
  exists rc, coordinate_to_tuple coord = Some rc /\ rc.1 <= 8.

(** What a call needs for its writes to go through: a general table
    with the row asked for, a template with the sheet, merged ranges that
    do not overlap, a grid of plain cells, and a creation date that is
    null or converts. *)
Record ready {rt : Runtime} (df_gen : Pd.DataFrame) (row_index : Z)
    (template : Workbook) (row : Pd.Series) (ws : Worksheet)
    (asg : list (string * value)) : Prop := mkReady {
  ready_table : Pd.empty df_gen = false;
  ready_row : Pd.iloc df_gen row_index = Some row;
  ready_sheet : template !! SHEET = Some ws;
  ready_contract : template_contract ws;
  ready_grid : grid_unmerged ws;
  ready_assignments : assignments row = Ok asg }.

(** The file name a call returned, when it returned. *)
Definition returned_name (r : outcome (Workbook * string)) : option string :=
  match r with
  | Ok (_, name) => Some name
  | Raise _ => None
  end.

End Header.
Import Header.

(** ** Further vocabulary *)

Module More.

(** The five conditional writes of one pass of the grid loop, on the
    values the line record has for the five attributes. *)
Definition slot_writes (df : Pd.DataFrame) (i : nat) : W unit :=
  write_slot plan_cells i (line_value df i Cote) ;;;
  write_slot plus_cells i (line_value df i Plus) ;;;
  write_slot minus_cells i (line_value df i Minus) ;;;
  write_slot moyenne_cells i (line_value df i Moy) ;;;
  write_slot tools_cells i (line_value df i Outil).

(** A line record without any value. *)
Definition null_record (df : Pd.DataFrame) (i : nat) : Prop :=
  forall a, isna (line_value df i a) = true.

Definition null_recordb (df : Pd.DataFrame) (i : nat) : bool :=
  forallb (fun a => isna (line_value df i a)) all_attrs.

(** A cell of the measurement grid. *)
Definition grid_cell (c : Z * Z) : Prop :=
  exists a i, (i < 6)%nat /\ c = slot_cell a i.

(** The value the header leaves in cell [c]: that of the last assignment
    which is not [None] and resolves to [c], if there is one. *)
Definition header_value (ranges : list CellRange) (asg : list (string * value))
    (c : Z * Z) : option value :=
  foldl (fun acc cv =>
           match coordinate_to_tuple cv.1 with
           | Some rc =>
               if bool_decide (cv.2 <> VNone) && bool_decide (resolve ranges rc = c)
               then Some cv.2 else acc
           | None => acc
           end) None asg.

(** The slot and attribute a cell belongs to among the first [k] slots. *)
Definition slot_of (k : nat) (c : Z * Z) : option (attr * nat) :=
  List.find (fun ai => bool_decide (c = slot_cell ai.1 ai.2))
    (flat_map (fun a => map (fun i => (a, i)) (seq 0 k)) all_attrs).

(** The value the grid loop leaves in cell [c]. *)
Definition grid_value (df : Pd.DataFrame) (k : nat) (c : Z * Z) : option value :=
  match slot_of k c with
  | Some (a, i) => if notna (line_value df i a) then Some (line_value df i a) else None
  | None => None
  end.

(** The content of a cell of the sheet a call returns. *)
Definition populated_cell (df_lines : Pd.DataFrame) (k : nat)
    (asg : list (string * value)) (ws : Worksheet) (c : Z * Z) : option value :=
  match grid_value df_lines k c with
  | Some v => Some v
  | None =>
      match header_value (merged_cells ws) asg c with
      | Some v => Some v
      | None => cells ws !! c
      end
  end.

(** Every value of line record [i] that is not null has a slot cell
    that can be written. *)
Definition slot_writable (ranges : list CellRange) (df : Pd.DataFrame) (i : nat) : bool :=
  forallb (fun a => isna (line_value df i a) ||
                    negb (is_merged_cell ranges (slot_cell a i))) all_attrs.

(** A statement that leaves the merged ranges of the sheet alone. *)
Definition keeps_merged {A} (m : W A) : Prop :=
  forall ws, merged_cells (m ws).2 = merged_cells ws.

(** A statement that changes no cell outside [P]. *)
Definition writes_within {A} (P : Z * Z -> Prop) (m : W A) : Prop :=
  forall ws c, ~ P c -> cells (m ws).2 !! c = cells ws !! c.

(** The cells [populate_fiche] may write: rows 1 to 8 and the grid. *)
Definition output_area (c : Z * Z) : Prop := c.1 <= 8 \/ grid_cell c.


(** The keys of [assignments], in the order of the literal, and the
    cells they name. *)
Definition header_keys : list string :=
  ["M1"; "T1"; "K2"; "T2"; "X2"; "X4"; "X5"; "X6"; "X7"; "X8"].

Definition header_cells : list (Z * Z) :=
  omap coordinate_to_tuple header_keys.

(** Every header field has a cell of its own: no two of the ten
    coordinates resolve to the same cell of the sheet. *)
Definition header_cells_apart (ws : Worksheet) : Prop :=
  NoDup (map (resolve (merged_cells ws)) header_cells).

Definition header_cells_apartb (ws : Worksheet) : bool :=
  bool_decide (NoDup (map (resolve (merged_cells ws)) header_cells)).

(** A printable ASCII character that openpyxl's reference grammar
    [[$]?([A-Za-z]{1,3})?[$]?(\d+)?(:[$]?([A-Za-z]{1,3})?[$]?(\d+)?)?]
    has no place for: anything but a letter, a digit, [$] and [:]. *)
Definition foreign_char (a : ascii) : bool :=
  let n := nat_of_ascii a in
  (32 <=? n)%nat && (n <=? 126)%nat &&
  negb (is_letter a || is_digit a || Ascii.eqb a "$" || Ascii.eqb a ":").

Fixpoint has_foreign_char (s : string) : bool :=
  match s with
  | EmptyString => false
  | String a r => foreign_char a || has_foreign_char r
  end.

(** A key with a [!] is split by openpyxl into a sheet title and a
    reference before the grammar is applied. *)
Fixpoint names_sheet (s : string) : bool :=
  match s with
  | EmptyString => false
  | String a r => Ascii.eqb a "!" || names_sheet r
  end.

(** A key openpyxl rejects with [ValueError] whatever the sheet: no
    sheet title, and a character the grammar cannot match. *)
Definition rejected_key (s : string) : bool :=
  has_foreign_char s && negb (names_sheet s).

End More.
Import More.

(** ** The Streamlit script (lines 145 to 187) *)

Module App.

(** What the [except Exception] of the script can catch. *)
Inductive app_exn :=
| Populate (e : exn)
| ReadFailed (msg : string)
| LoadFailed (msg : string)
| WidgetFailed (key : string).

Inductive result (A : Type) :=
| Done (a : A)
| Failed (e : app_exn).
Arguments Done {A} a.
Arguments Failed {A} e.

(** What the script takes from its host and this repository does not
    define: how [pd.read_excel] reads a sheet out of the bytes of a file,
    what [load_workbook] returns for the template path, and whether
    Streamlit accepts a widget key, given the keys of the widgets it has
    already placed. *)
Class Host := {
  read_excel : string -> string -> app_exn + Pd.DataFrame;
  load_workbook : app_exn + Workbook;
  accepts_key : list string -> string -> bool }.

(** An uploaded file: its name and its bytes. *)
Record Upload := mkUpload { up_name : string; up_data : string }.

(** What the script puts on the page.  The message of [st.error] is kept
    as its two parts, the name of the upload and the exception. *)
Inductive event :=
| Divider
| Subheader (text : string)
| Columns
| Success (text : string)
| DownloadButton (label : string) (data : Workbook) (file_name mime key : string)
| ErrorMessage (upload : string) (e : app_exn)
| Info (text : string)
| Write (text : string).

(** The files of the output directory by name, the page, and the keys
    of the widgets placed. *)
Record Page := mkPage {
  files : gmap string string;
  events : list event;
  keys : list string }.

Section WithHost.
Context {rt : Runtime} {host : Host}.

(** [populate_fiche] from the bytes of the source file: the two sheets
    are read first, the template is loaded after the row was taken. *)
Definition populate_fiche_bytes (data : string) : result (Workbook * string) :=
  match read_excel data "Dossier Technique_general" with
  | inl e => Failed e
  | inr df_gen =>
      match read_excel data "Dossier Technique_lines" with
      | inl e => Failed e
      | inr df_lines =>
          match load_workbook with
          | inr template =>
              match (populate_fiche df_gen df_lines template 0 MAX_PLAN_SLOTS).1 with
              | Ok r => Done r
              | Raise e => Failed (Populate e)
              end
          | inl e =>
              if Pd.empty df_gen
              then Failed (Populate
                     (ValueError "Sheet 'Dossier Technique_general' is empty."))
              else match Pd.iloc df_gen 0 with
                   | None => Failed (Populate IndexError)
                   | Some _ => Failed e
                   end
          end
      end
  end.

(** [populate_fiche(src_path=...)] *)
Definition populate_fiche_path (fs : gmap string string) (src_path : string)
  : result (Workbook * string) :=
  match fs !! src_path with
  | None => Failed (ReadFailed src_path)
  | Some data => populate_fiche_bytes data
  end.

Definition tmp_name (up : Upload) : string := "__tmp_input_" +:+ up_name up.

Definition emit (e : event) (p : Page) : Page :=
  {| files := files p; events := events p ++ [e]; keys := keys p |}.

Definition XLSX_MIME : string :=
  "application/vnd.openxmlformats-officedocument.spreadsheetml.sheet".

(** The body of [for up in uploaded]: [try], [except] and [finally]. *)
Definition process_upload (p : Page) (up : Upload) : Page :=
  let data := up_data up in
  let tmp_src := tmp_name up in
  let p1 := {| files := <[tmp_src := data]> (files p);
               events := events p; keys := keys p |} in
  let p2 :=
    match populate_fiche_path (files p1) tmp_src with
    | Done (file, file_name) =>
        let p3 := emit (Success ("✅ Généré : `" +:+ file_name +:+ "`")) (emit Columns p1) in
        let key := "dl_" +:+ file_name in
        if accepts_key (keys p3) key
        then {| files := files p3;
                events := events p3 ++
                  [DownloadButton "⬇️ Télécharger" file file_name XLSX_MIME key];
                keys := key :: keys p3 |}
        else emit (ErrorMessage (up_name up) (WidgetFailed key)) p3
    | Failed e => emit (ErrorMessage (up_name up) e) p1
    end in
  {| files := delete tmp_src (files p2); events := events p2; keys := keys p2 |}.

(** [if uploaded: ... else: ...] *)
Definition run (uploaded : list Upload) (p : Page) : Page :=
  match uploaded with
  | [] => emit (Write "Aucun fichier déposé pour l’instant.") p
  | _ :: _ =>
      emit (Info "Toutes les fiches ont été générées ")
        (foldl process_upload (emit (Subheader "Résultats") (emit Divider p)) uploaded)
  end.

(** What one upload puts on the page and the keys taken afterwards, from
    its bytes and the keys taken before. *)
Definition block (ks : list string) (up : Upload) : list event * list string :=
  match populate_fiche_bytes (up_data up) with
  | Done (file, file_name) =>
      let key := "dl_" +:+ file_name in
      if accepts_key ks key
      then ([Columns; Success ("✅ Généré : `" +:+ file_name +:+ "`");
             DownloadButton "⬇️ Télécharger" file file_name XLSX_MIME key], key :: ks)
      else ([Columns; Success ("✅ Généré : `" +:+ file_name +:+ "`");
             ErrorMessage (up_name up) (WidgetFailed key)], ks)
  | Failed e => ([ErrorMessage (up_name up) e], ks)
  end.

Fixpoint blocks (ks : list string) (uploaded : list Upload) : list event :=
  match uploaded with
  | [] => []
  | up :: rest => (block ks up).1 ++ blocks (block ks up).2 rest
  end.

End WithHost.

End App.

(** ** More sample inputs *)

Module Sample2.

(** The records of [Sample.lines3] in a table whose columns come in
    another order, with a column the script does not read. *)
Definition lines3_shuffled : Pd.DataFrame :=
  Pd.mkDataFrame
    [ "Outil de mesure"; "Remarque"; "Côtes MOYENNES"; "Côtes PLAN";
      "Tolérance inférieure"; "Tolérance supérieure" ]
    [ [VStr "PAC"; VStr "ok"; VInt 10; VInt 10; VFloat Sample.half; VFloat Sample.half];
      [VNaN; VNaN; VInt 20; VInt 20; VFloat Sample.half; VFloat Sample.half];
      [VStr "MMT"; VStr "-"; VInt 30; VInt 30; VFloat Sample.half; VFloat Sample.half] ].

(** Seven records, the seventh without any value. *)
Definition lines7_blank : Pd.DataFrame :=
  Pd.mkDataFrame Sample.line_columns
    (map (fun n => Sample.line n (VStr "PAC")) [10; 20; 30; 40; 50; 60] ++
     [[VNaN; VNaN; VNaN; VNaN; VNaN]]).

(** A sheet where H9:I9 is merged: I9, the dimension cell of the second
    slot, is a merged cell. *)
Definition sheet_merged_grid : Worksheet :=
  mkWorksheet ∅ [Sample.client_range; mkRange 8 9 9 9].

(** A sheet where M1:S1 and K1:N2 overlap: M1 is the anchor of the first
    range and a merged cell of the second. *)
Definition sheet_overlap : Worksheet :=
  mkWorksheet ∅ [Sample.client_range; mkRange 11 1 14 2].

(** The same two ranges met in the other order. *)
Definition sheet_overlap' : Worksheet :=
  mkWorksheet ∅ [mkRange 11 1 14 2; Sample.client_range].

(** A template with a second sheet. *)
Definition notes : Worksheet := mkWorksheet {[ (1, 1) := VStr "Notes" ]} [].
Definition template2 : Workbook := {[ SHEET := Sample.sheet; "Notes" := notes ]}.

Definition memory_of (r : outcome (Workbook * string) * option Workbook) : Workbook :=
  default ∅ r.2.

(** A host that reads the bytes ["ok"] as a workbook with the sample
    tables and ["vide"] as one whose general sheet has no row, that finds
    the template, and that refuses a widget key already taken. *)
Definition host : App.Host := {|
  App.read_excel data sheet_name :=
    if String.eqb data "ok" then
      if String.eqb sheet_name "Dossier Technique_general" then inr Sample.gen_ok
      else inr Sample.lines3
    else if String.eqb data "vide" then
      if String.eqb sheet_name "Dossier Technique_general" then inr Sample.gen_empty
      else inr Sample.lines3
    else inl (App.ReadFailed "File is not a zip file");
  App.load_workbook := inr Sample.template;
  App.accepts_key ks k := negb (existsb (String.eqb k) ks) |}.

Definition empty_page : App.Page := App.mkPage ∅ [] [].

(** A directory that already holds a file named as a temporary copy. *)
Definition used_page : App.Page :=
  App.mkPage {[ "__tmp_input_a.xlsx" := "old"; "fiche.xlsx" := "kept" ]} [] [].

Definition uploads_bad : list App.Upload :=
  [ App.mkUpload "a.xlsx" "vide"; App.mkUpload "b.xlsx" "pdf" ].

Definition uploads_mixed : list App.Upload :=
  [ App.mkUpload "a.xlsx" "pdf"; App.mkUpload "b.xlsx" "ok" ].

(** The creation date is the text 0000-01-01: [pd.to_datetime] reads
    it, [datetime.date] has no year 0. *)
Definition gen_year0 : Pd.DataFrame :=
  Pd.mkDataFrame Sample.general_columns
    [Sample.general_row (VInt 4711) (VStr "0000-01-01")].

End Sample2.

(** * Properties *)


(** ** Coordinate strings *)

Lemma letter_facts (r : Z) :
  1 <= r <= 26 -> is_letter (letter r) = true /\ letter_index (letter r) = r.
Proof.
  intros Hr. unfold is_letter, letter_index, upper, is_lower, is_upper, letter.
  rewrite nat_ascii_embedding by lia.
  destruct (Nat.leb_spec 65 (Z.to_nat (r + 64))); [|lia].
  destruct (Nat.leb_spec (Z.to_nat (r + 64)) 90); [|lia].
  destruct (Nat.leb_spec 97 (Z.to_nat (r + 64))); [lia|]. simpl.
  rewrite nat_ascii_embedding by lia. split; [done|lia].
Qed.

Lemma column_letters_step (k : nat) (q r : Z) (acc : string) :
  1 <= r <= 26 -> 0 <= q ->
  column_letters (S k) (26 * q + r) acc = column_letters k q (String (letter r) acc).
Proof.
  intros Hr Hq. simpl.
  destruct (Z.leb_spec (26 * q + r) 0); [lia|].
  destruct (Z.eqb_spec ((26 * q + r) mod 26) 0) as [E|E].
  - assert (r = 26) as -> by (revert E; Z.div_mod_to_equations; lia).
    replace ((26 * q + 26) / 26 - 1) with q by (Z.div_mod_to_equations; lia).
    reflexivity.
  - replace ((26 * q + r) / 26) with q by (Z.div_mod_to_equations; lia).
    replace ((26 * q + r) mod 26) with r by (Z.div_mod_to_equations; lia).
    reflexivity.
Qed.

Lemma column_letters_zero (k : nat) (acc : string) : column_letters k 0 acc = acc.
Proof. by destruct k. Qed.

Lemma column_digits (c : Z) :
  1 <= c <= 18278 ->
  exists q r, c = 26 * q + r /\ 1 <= r <= 26 /\ 0 <= q <= 702.
Proof.
  intros Hc. exists ((c - 1) / 26), ((c - 1) mod 26 + 1).
  Z.div_mod_to_equations. lia.
Qed.

Lemma get_column_letter_spec (c : Z) :
  1 <= c <= 18278 ->
  exists l, get_column_letter c = Some l /\ all_letters l = true /\ l <> "" /\
            column_index_from_string l = Some c.
Proof.
  intros Hc. exists (column_letters 3 c "").
  split.
  { unfold get_column_letter.
    destruct (Z.leb_spec 1 c); [|lia]. by destruct (Z.leb_spec c 18278); [|lia]. }
  destruct (column_digits c Hc) as (q1 & r1 & -> & Hr1 & Hq1).
  rewrite column_letters_step by lia.
  destruct (letter_facts r1 Hr1) as [L1 I1].
  destruct (decide (q1 = 0)) as [->|Hne1].
  { rewrite column_letters_zero. unfold column_index_from_string. simpl.
    rewrite L1, I1. split; [done|]. split; [done|]. f_equal; lia. }
  assert (exists q2 r2, q1 = 26 * q2 + r2 /\ 1 <= r2 <= 26 /\ 0 <= q2 <= 26)
    as (q2 & r2 & -> & Hr2 & Hq2).
  { exists ((q1 - 1) / 26), ((q1 - 1) mod 26 + 1). Z.div_mod_to_equations. lia. }
  rewrite column_letters_step by lia.
  destruct (letter_facts r2 Hr2) as [L2 I2].
  destruct (decide (q2 = 0)) as [->|Hne2].
  { rewrite column_letters_zero. unfold column_index_from_string. simpl.
    rewrite L1, I1, L2, I2. split; [done|]. split; [done|]. f_equal; lia. }
  replace q2 with (26 * 0 + q2) by lia.
  rewrite column_letters_step by lia.
  destruct (letter_facts q2) as [L3 I3]; [lia|].
  unfold column_index_from_string. simpl.
  rewrite L1, I1, L2, I2, L3, I3. split; [done|]. split; [done|]. f_equal; lia.
Qed.

Lemma column_round_trips_in_range (c : Z) :
  1 <= c <= 18278 -> column_round_trips c = true.
Proof.
  intros Hc. unfold column_round_trips.
  destruct (get_column_letter_spec c Hc) as (l & -> & Hall & Hne & Hidx).
  rewrite Hall, bool_decide_eq_true_2 by done.
  destruct l; [done|reflexivity].
Qed.

Lemma strip_dollar_letter (a : ascii) (r : string) :
  is_letter a = true -> strip_dollar (String a r) = String a r.
Proof.
  destruct a as [[] [] [] [] [] [] [] []]; try reflexivity; discriminate.
Qed.

Lemma span_letters_app (l d : string) :
  all_letters l = true ->
  match d with EmptyString => True | String a _ => is_letter a = false end ->
  span_letters (l +:+ d) = (l, d).
Proof.
  intros Hl Hd. induction l as [|a l IH]; simpl in *.
  - destruct d as [|a r]; [reflexivity|]. simpl. by rewrite Hd.
  - apply andb_prop in Hl as [Ha Hl]. rewrite Ha, (IH Hl). reflexivity.
Qed.

Lemma string_of_uint_head (u : Decimal.uint) :
  u <> Decimal.Nil ->
  exists a r, NilEmpty.string_of_uint u = String a r /\ is_digit a = true.
Proof.
  destruct u; [congruence|..]; intros _; simpl; eauto.
Qed.

Lemma str_Z_pos (p : positive) :
  str_Z (Z.pos p) = NilEmpty.string_of_uint (Pos.to_uint p).
Proof.
  unfold str_Z. simpl. unfold NilZero.string_of_uint.
  pose proof (DecimalPos.Unsigned.to_uint_nonnil p) as Hnil.
  destruct (Pos.to_uint p); [congruence|reflexivity..].
Qed.

Lemma str_Z_positive (r : Z) :
  1 <= r ->
  (exists a s, str_Z r = String a s /\ is_digit a = true) /\
  exists u, NilEmpty.uint_of_string (str_Z r) = Some u /\ Z.of_uint u = r.
Proof.
  intros Hr. destruct r as [|p|p]; try lia.
  rewrite str_Z_pos. split.
  - apply string_of_uint_head, DecimalPos.Unsigned.to_uint_nonnil.
  - exists (Pos.to_uint p). split; [apply NilEmpty.usu|].
    unfold Z.of_uint. rewrite DecimalPos.Unsigned.of_to. reflexivity.
Qed.

Lemma digit_not_letter (a : ascii) : is_digit a = true -> is_letter a = false.
Proof.
  destruct a as [[] [] [] [] [] [] [] []]; try reflexivity; discriminate.
Qed.

Lemma strip_dollar_digit (a : ascii) (r : string) :
  is_digit a = true -> strip_dollar (String a r) = String a r.
Proof.
  destruct a as [[] [] [] [] [] [] [] []]; try reflexivity; discriminate.
Qed.

(** The coordinate string built for the anchor of a range reads back as
    the anchor cell. *)
Lemma anchor_coordinate_spec (rng : CellRange) :
  1 <= min_col rng <= 18278 -> 1 <= min_row rng ->
  exists a, anchor_coordinate rng = Some a /\ coordinate_to_tuple a = Some (anchor rng).
Proof.
  intros Hc Hr.
  destruct (get_column_letter_spec _ Hc) as (l & Hl & Hall & Hne & Hidx).
  destruct (str_Z_positive _ Hr) as [(a & s & Hs & Ha) (u & Hu & Hz)].
  unfold anchor_coordinate. rewrite Hl. eexists; split; [reflexivity|].
  unfold coordinate_to_tuple.
  destruct l as [|b l]; [congruence|].
  simpl in Hall. apply andb_prop in Hall as [Hb Hall'].
  change (String b l +:+ str_Z (min_row rng)) with (String b (l +:+ str_Z (min_row rng))).
  rewrite (strip_dollar_letter _ _ Hb).
  change (String b (l +:+ str_Z (min_row rng))) with (String b l +:+ str_Z (min_row rng)).
  rewrite span_letters_app.
  - rewrite Hidx. rewrite Hs, (strip_dollar_digit _ _ Ha), <- Hs, Hu, Hz.
    destruct (Z.leb_spec 1 (min_row rng)); [reflexivity|lia].
  - simpl. by rewrite Hb, Hall'.
  - rewrite Hs. by apply digit_not_letter.
Qed.

(** ** The merged-region resolver *)

Lemma resolve_first (ranges : list CellRange) (rc : Z * Z) (rng : CellRange) :
  at_most_one_range ranges ->
  In rng ranges -> range_contains rng rc = true ->
  resolve ranges rc = anchor rng.
Proof.
  intros Hd Hin Hc. unfold resolve.
  destruct (find (fun r => range_contains r rc) ranges) as [r|] eqn:E.
  - apply find_some in E as [Hr Hrc]. by rewrite (Hd r rng rc Hr Hin Hrc Hc).
  - eapply find_none in E; [|exact Hin]. simpl in E. congruence.
Qed.

Lemma resolve_outside (ranges : list CellRange) (rc : Z * Z) :
  (forall rng, In rng ranges -> range_contains rng rc = false) ->
  resolve ranges rc = rc.
Proof.
  intros Hno. unfold resolve.
  destruct (find (fun r => range_contains r rc) ranges) as [r|] eqn:E; [|reflexivity].
  apply find_some in E as [Hr Hrc]. rewrite (Hno r Hr) in Hrc. discriminate.
Qed.

Lemma range_contains_anchor (rng : CellRange) (rc : Z * Z) :
  range_contains rng rc = true -> range_contains rng (anchor rng) = true.
Proof.
  unfold range_contains, anchor. simpl. intros H.
  repeat (apply andb_prop in H as [H ?]).
  repeat (apply andb_true_intro; split); lia.
Qed.

Lemma is_merged_cell_false (ranges : list CellRange) (rc : Z * Z) :
  is_merged_cell ranges rc = false <->
  forall rng, In rng ranges -> range_contains rng rc = true -> rc = anchor rng.
Proof.
  unfold is_merged_cell. split.
  - intros H rng Hin Hc.
    destruct (decide (rc = anchor rng)) as [|Hne]; [done|].
    assert (existsb (fun r => range_contains r rc && negb (bool_decide (rc = anchor r)))
              ranges = true) as E; [|congruence].
    apply existsb_exists. exists rng. split; [done|].
    rewrite Hc. simpl. by rewrite bool_decide_eq_false_2.
  - intros H. apply not_true_is_false. intros E.
    apply existsb_exists in E as (rng & Hin & E).
    apply andb_prop in E as [Hc Hne].
    specialize (H rng Hin Hc). rewrite bool_decide_eq_true_2 in Hne; done.
Qed.

(** Where a write is resolved to, the cell can be written. *)
Lemma resolve_writable (ranges : list CellRange) (rc : Z * Z) :
  at_most_one_range ranges ->
  is_merged_cell ranges (resolve ranges rc) = false.
Proof.
  intros Hd. apply is_merged_cell_false. intros r' Hin' Hc'.
  unfold resolve in *.
  destruct (find (fun r => range_contains r rc) ranges) as [r|] eqn:E.
  - apply find_some in E as [Hr Hrc].
    apply range_contains_anchor in Hrc.
    by rewrite (Hd r r' (anchor r) Hr Hin' Hrc Hc').
  - eapply find_none in E; [|exact Hin']. simpl in E. congruence.
Qed.

(** The scan of [write_into_merged] is a write to the resolved cell. *)
Lemma write_scan_resolve (ranges : list CellRange) (coord : string) (v : value)
    (rc : Z * Z) (ws : Worksheet) :
  Forall valid_anchor ranges ->
  coordinate_to_tuple coord = Some rc ->
  write_scan ranges coord v ws =
    if is_merged_cell (merged_cells ws) (resolve ranges rc)
    then (Raise AttributeError, ws)
    else (Ok tt, set_cell (resolve ranges rc) v ws).
Proof.
  intros Hv Hp. induction Hv as [|rng rest [Hc Hr] _ IH]; simpl.
  - unfold setitem. rewrite Hp. reflexivity.
  - rewrite Hp. unfold resolve. simpl.
    destruct (range_contains rng rc) eqn:E; [|exact IH].
    destruct (anchor_coordinate_spec rng Hc Hr) as (a & Ha & Hpa).
    rewrite Ha. unfold setitem. rewrite Hpa. reflexivity.
Qed.

Lemma write_into_merged_resolve (coord : string) (v : value) (rc : Z * Z)
    (ws : Worksheet) :
  template_contract ws ->
  coordinate_to_tuple coord = Some rc ->
  write_into_merged coord v ws =
    if bool_decide (v = VNone) then (Ok tt, ws)
    else (Ok tt, set_cell (resolve (merged_cells ws) rc) v ws).
Proof.
  intros [Hv Hd] Hp. unfold write_into_merged.
  destruct v; try reflexivity;
    rewrite (write_scan_resolve _ _ _ rc _ Hv Hp), (resolve_writable _ _ Hd);
    reflexivity.
Qed.

(** C1. A scalar write of a value other than [None] through
    [write_into_merged], on a worksheet whose merged ranges do not
    overlap: when the coordinate lies inside a merged range, the value is
    stored in the top-left cell of that range; when it lies inside no
    range, the value is stored in the cell of the coordinate itself.  In
    both cases nothing else changes and nothing is raised. *)
Theorem C1_write_lands_on_anchor (ws : Worksheet) (coord : string) (rc : Z * Z)
    (v : value) :
  template_contract ws ->
  coordinate_to_tuple coord = Some rc ->
  v <> VNone ->
  (forall rng, In rng (merged_cells ws) -> range_contains rng rc = true ->
     write_into_merged coord v ws = (Ok tt, set_cell (anchor rng) v ws)) /\
  ((forall rng, In rng (merged_cells ws) -> range_contains rng rc = false) ->
     write_into_merged coord v ws = (Ok tt, set_cell rc v ws)).
Proof.
  intros Ht Hp Hv.
  rewrite (write_into_merged_resolve _ _ _ _ Ht Hp), bool_decide_eq_false_2 by done.
  destruct Ht as [_ Hd]. split.
  - intros rng Hin Hc. by rewrite (resolve_first _ _ _ Hd Hin Hc).
  - intros Hno. by rewrite (resolve_outside _ _ Hno).
Qed.

(** ** The measurement grid *)

Lemma attr_cells_lookup (a : attr) (i : nat) :
  (i < 6)%nat ->
  exists key, attr_cells a !! i = Some key /\
              coordinate_to_tuple key = Some (slot_cell a i).
Proof.
  intros Hi.
  destruct a; do 6 (destruct i as [|i]; [eexists; split; [reflexivity|vm_compute; reflexivity]|]);
    lia.
Qed.

Lemma slot_cell_inj (a b : attr) (i j : nat) :
  slot_cell a i = slot_cell b j -> a = b /\ i = j.
Proof.
  destruct a, b; simpl; intros [= ?]; try lia; split; try reflexivity; lia.
Qed.

Lemma put_merged (a : attr) (i : nat) (v : value) (ws : Worksheet) :
  merged_cells (put a i v ws) = merged_cells ws.
Proof. unfold put. by destruct (notna v). Qed.

Lemma slot_result_merged (df : Pd.DataFrame) (i : nat) (ws : Worksheet) :
  merged_cells (slot_result df i ws) = merged_cells ws.
Proof. unfold slot_result. by rewrite !put_merged. Qed.

Lemma grid_result_merged (df : Pd.DataFrame) (k : nat) (ws : Worksheet) :
  merged_cells (grid_result df k ws) = merged_cells ws.
Proof.
  unfold grid_result. generalize 0%nat as s. revert ws.
  induction k as [|k IH]; intros ws s; simpl; [done|].
  by rewrite IH, slot_result_merged.
Qed.

Lemma write_slot_spec (a : attr) (i : nat) (v : value) (ws : Worksheet) :
  (i < 6)%nat -> grid_unmerged ws ->
  write_slot (attr_cells a) i v ws = (Ok tt, put a i v ws).
Proof.
  intros Hi Hg. unfold write_slot, put.
  destruct (notna v); [|reflexivity].
  destruct (attr_cells_lookup a i Hi) as (key & -> & Hp).
  unfold setitem. by rewrite Hp, (Hg a i Hi).
Qed.

Lemma grid_unmerged_put (a : attr) (i : nat) (v : value) (ws : Worksheet) :
  grid_unmerged ws -> grid_unmerged (put a i v ws).
Proof. intros Hg b j Hj. rewrite put_merged. by apply Hg. Qed.

Lemma grid_unmerged_slot (df : Pd.DataFrame) (i : nat) (ws : Worksheet) :
  grid_unmerged ws -> grid_unmerged (slot_result df i ws).
Proof. intros Hg b j Hj. rewrite slot_result_merged. by apply Hg. Qed.

(** *** Reading a line record through [df_lines[keep].rename(...)] *)

Lemma lookup_label_absent (df : Pd.DataFrame) (r : list value) (c : string) :
  Pd.has_column df c = false -> Pd.lookup_label (Pd.columns df) r c = None.
Proof.
  unfold Pd.has_column. generalize (Pd.columns df) as cols. intros cols. revert r.
  induction cols as [|k ks IH]; intros r H; simpl in *; [done|].
  apply orb_false_elim in H as [Hk Hks].
  rewrite String.eqb_sym, Hk. by apply IH.
Qed.

Lemma lookup_label_present (df : Pd.DataFrame) (r : list value) (c : string) :
  Pd.has_column df c = true -> is_Some (Pd.lookup_label (Pd.columns df) r c).
Proof.
  unfold Pd.has_column. generalize (Pd.columns df) as cols. intros cols. revert r.
  induction cols as [|k ks IH]; intros r H; simpl in *; [done|].
  rewrite String.eqb_sym. destruct (String.eqb c k); [eauto|]. by apply IH.
Qed.

Lemma iloc_nat (df : Pd.DataFrame) (i : nat) :
  Pd.iloc df (Z.of_nat i) = Pd.mkSeries (Pd.columns df) <$> Pd.rows df !! i.
Proof.
  unfold Pd.iloc, Pd.len.
  destruct (Z.ltb_spec (Z.of_nat i) 0); [lia|].
  rewrite Nat2Z.id.
  destruct (Z.leb_spec 0 (Z.of_nat i)); [|lia]. simpl.
  destruct (Z.ltb_spec (Z.of_nat i) (Z.of_nat (length (Pd.rows df)))); [done|].
  rewrite lookup_ge_None_2; [done|lia].
Qed.

Lemma renamed_get (df : Pd.DataFrame) (i : nat) (a : attr) (r : list value) :
  Pd.rows df !! i = Some r ->
  exists s, Pd.iloc (Pd.rename (Pd.select df (keep df)) col_map) (Z.of_nat i) = Some s /\
            Pd.get s (attr_key a) = line_value df i a.
Proof.
  intros Hr. unfold line_value. rewrite !iloc_nat. simpl.
  rewrite list_lookup_fmap, Hr. simpl. eexists; split; [reflexivity|].
  unfold Pd.get. simpl. unfold keep. simpl.
  destruct (Pd.has_column df "Côtes PLAN") eqn:E1;
  destruct (Pd.has_column df "Tolérance supérieure") eqn:E2;
  destruct (Pd.has_column df "Tolérance inférieure") eqn:E3;
  destruct (Pd.has_column df "Côtes MOYENNES") eqn:E4;
  destruct (Pd.has_column df "Outil de mesure") eqn:E5;
  destruct a; simpl;
  repeat match goal with
  | H : Pd.has_column df ?c = false |- context [Pd.lookup_label (Pd.columns df) r ?c] =>
      rewrite (lookup_label_absent df r c H)
  | H : Pd.has_column df ?c = true |- context [Pd.lookup_label (Pd.columns df) r ?c] =>
      let v := fresh "v" in let Hv := fresh "Hv" in
      destruct (lookup_label_present df r c H) as [v Hv]; rewrite Hv
  end; reflexivity.
Qed.

(** *** The loop over the line records *)

Lemma fill_slot_spec (df : Pd.DataFrame) (i : nat) (r : list value) (ws : Worksheet) :
  Pd.rows df !! i = Some r -> (i < 6)%nat -> grid_unmerged ws ->
  fill_slot (Pd.rename (Pd.select df (keep df)) col_map) i ws =
    (Ok tt, slot_result df i ws).
Proof.
  intros Hr Hi Hg. unfold fill_slot.
  destruct (renamed_get df i Cote r Hr) as (s & Hs & Hcote).
  destruct (renamed_get df i Plus r Hr) as (s1 & Hs1 & Hplus).
  destruct (renamed_get df i Minus r Hr) as (s2 & Hs2 & Hminus).
  destruct (renamed_get df i Moy r Hr) as (s3 & Hs3 & Hmoy).
  destruct (renamed_get df i Outil r Hr) as (s4 & Hs4 & Houtil).
  rewrite Hs in Hs1, Hs2, Hs3, Hs4.
  injection Hs1 as <-. injection Hs2 as <-. injection Hs3 as <-. injection Hs4 as <-.
  rewrite Hs. simpl in Hcote, Hplus, Hminus, Hmoy, Houtil.
  rewrite Hcote, Hplus, Hminus, Hmoy, Houtil.
  unfold bind, slot_result.
  change plan_cells with (attr_cells Cote). change plus_cells with (attr_cells Plus).
  change minus_cells with (attr_cells Minus). change moyenne_cells with (attr_cells Moy).
  change tools_cells with (attr_cells Outil).
  rewrite write_slot_spec by done.
  rewrite write_slot_spec by auto using grid_unmerged_put.
  rewrite write_slot_spec by auto using grid_unmerged_put.
  rewrite write_slot_spec by auto using grid_unmerged_put.
  rewrite write_slot_spec by auto using grid_unmerged_put.
  reflexivity.
Qed.

Lemma for_each_fill_slot (df : Pd.DataFrame) (s n : nat) (ws : Worksheet) :
  (s + n <= 6)%nat -> (s + n <= length (Pd.rows df))%nat -> grid_unmerged ws ->
  for_each (seq s n) (fill_slot (Pd.rename (Pd.select df (keep df)) col_map)) ws =
    (Ok tt, foldl (fun w i => slot_result df i w) ws (seq s n)).
Proof.
  revert s ws. induction n as [|n IH]; intros s ws H6 Hlen Hg; simpl; [done|].
  destruct (lookup_lt_is_Some_2 (Pd.rows df) s) as [r Hr]; [lia|].
  unfold bind. rewrite (fill_slot_spec df s r ws Hr) by (done || lia).
  apply IH; [lia|lia|by apply grid_unmerged_slot].
Qed.

Lemma keep_nil_line_value (df : Pd.DataFrame) (i : nat) (a : attr) :
  keep df = [] -> line_value df i a = VNone.
Proof.
  intros Hk. unfold line_value.
  destruct (Pd.iloc df (Z.of_nat i)) as [s|] eqn:E; [|done].
  rewrite iloc_nat in E. destruct (Pd.rows df !! i) as [r|]; [|done].
  injection E as <-. unfold Pd.get. simpl.
  rewrite lookup_label_absent; [done|].
  destruct (Pd.has_column df (attr_column a)) eqn:Hc; [|done].
  assert (In (attr_column a) (keep df)) as Hin; [|by rewrite Hk in Hin].
  unfold keep. apply filter_In. split; [|done].
  destruct a; simpl; tauto.
Qed.

Lemma put_None (a : attr) (i : nat) (ws : Worksheet) : put a i VNone ws = ws.
Proof. reflexivity. Qed.

Lemma keep_nil_grid_result (df : Pd.DataFrame) (k : nat) (ws : Worksheet) :
  keep df = [] -> grid_result df k ws = ws.
Proof.
  intros Hk. unfold grid_result. generalize 0%nat as s.
  induction k as [|k IH]; intros s; simpl; [done|].
  unfold slot_result. rewrite !(keep_nil_line_value df _ _ Hk), !put_None. apply IH.
Qed.

(** The loop of lines 108 to 122 performs the grid writes of the first
    records, one slot per record, and raises nothing. *)
Lemma fill_grid_spec (df : Pd.DataFrame) (max_plan : Z) (ws : Worksheet) :
  (slots_used df max_plan <= 6)%nat -> grid_unmerged ws ->
  fill_grid df max_plan ws = (Ok tt, grid_result df (slots_used df max_plan) ws).
Proof.
  intros H6 Hg. unfold fill_grid.
  destruct (keep df) as [|k0 ks] eqn:Hk.
  - by rewrite keep_nil_grid_result.
  - rewrite <- Hk.
    assert (Pd.len (Pd.rename (Pd.select df (keep df)) col_map) = Pd.len df) as ->.
    { unfold Pd.len. simpl. by rewrite length_map. }
    apply for_each_fill_slot; [done| |done].
    unfold slots_used, Pd.len in *. lia.
Qed.

(** *** What the grid holds afterwards *)

Lemma put_lookup (a : attr) (i : nat) (v : value) (ws : Worksheet) (c : Z * Z) :
  cells (put a i v ws) !! c =
    if decide (c = slot_cell a i)
    then (if notna v then Some v else cells ws !! c)
    else cells ws !! c.
Proof.
  unfold put. destruct (notna v); simpl.
  - rewrite lookup_insert. repeat case_decide; congruence.
  - by case_decide.
Qed.

Lemma slot_result_lookup (df : Pd.DataFrame) (a : attr) (i : nat) (ws : Worksheet) :
  cells (slot_result df i ws) !! slot_cell a i =
    if notna (line_value df i a) then Some (line_value df i a)
    else cells ws !! slot_cell a i.
Proof.
  unfold slot_result. rewrite !put_lookup.
  destruct a; repeat case_decide; try done;
    match goal with
    | H : slot_cell _ _ = slot_cell _ _ |- _ =>
        apply slot_cell_inj in H; destruct H; discriminate
    end.
Qed.

Lemma slot_result_frame (df : Pd.DataFrame) (i : nat) (ws : Worksheet) (c : Z * Z) :
  (forall a, c <> slot_cell a i) ->
  cells (slot_result df i ws) !! c = cells ws !! c.
Proof.
  intros Hc. unfold slot_result. rewrite !put_lookup.
  repeat (case_decide; [by exfalso; eapply Hc|]). reflexivity.
Qed.

Lemma grid_result_S (df : Pd.DataFrame) (k : nat) (ws : Worksheet) :
  grid_result df (S k) ws = slot_result df k (grid_result df k ws).
Proof. unfold grid_result. by rewrite seq_S, foldl_app. Qed.

Lemma grid_result_frame (df : Pd.DataFrame) (k : nat) (ws : Worksheet) (c : Z * Z) :
  (forall a i, (i < k)%nat -> c <> slot_cell a i) ->
  cells (grid_result df k ws) !! c = cells ws !! c.
Proof.
  induction k as [|k IH]; intros Hc; [done|].
  rewrite grid_result_S, slot_result_frame; [apply IH|]; intros; apply Hc; lia.
Qed.

Lemma grid_result_lookup (df : Pd.DataFrame) (k : nat) (ws : Worksheet)
    (a : attr) (i : nat) :
  cells (grid_result df k ws) !! slot_cell a i =
    if decide (i < k)%nat
    then (if notna (line_value df i a) then Some (line_value df i a)
          else cells ws !! slot_cell a i)
    else cells ws !! slot_cell a i.
Proof.
  induction k as [|k IH]; [case_decide; [lia|done]|].
  rewrite grid_result_S.
  destruct (decide (i = k)) as [->|Hne].
  - rewrite slot_result_lookup, IH. repeat case_decide; try lia. reflexivity.
  - rewrite slot_result_frame, IH.
    + repeat case_decide; try lia; reflexivity.
    + intros b E. apply slot_cell_inj in E. lia.
Qed.

(** ** Checking the template contract by computation *)

Lemma valid_anchorb_sound (rng : CellRange) :
  valid_anchorb rng = true -> valid_anchor rng.
Proof.
  unfold valid_anchorb, valid_anchor. intros H.
  apply andb_prop in H as [H H3]. apply andb_prop in H as [H1 H2]. lia.
Qed.

Lemma overlap_complete (r1 r2 : CellRange) (rc : Z * Z) :
  range_contains r1 rc = true -> range_contains r2 rc = true -> overlap r1 r2 = true.
Proof.
  unfold range_contains, overlap. intros H1 H2.
  repeat (apply andb_prop in H1 as [H1 ?]). repeat (apply andb_prop in H2 as [H2 ?]).
  apply andb_true_intro. split; lia.
Qed.

Lemma pairwise_disjoint_sound (ranges : list CellRange) :
  pairwise_disjoint ranges = true -> at_most_one_range ranges.
Proof.
  induction ranges as [|r rest IH]; intros H r1 r2 rc H1 H2 Hc1 Hc2; [done|].
  simpl in H. apply andb_prop in H as [Hr Hrest].
  rewrite forallb_forall in Hr.
  destruct H1 as [<-|H1], H2 as [<-|H2]; [done| | |by eapply IH].
  - specialize (Hr _ H2). by rewrite (overlap_complete _ _ _ Hc1 Hc2) in Hr.
  - specialize (Hr _ H1). by rewrite (overlap_complete _ _ _ Hc2 Hc1) in Hr.
Qed.

Lemma template_contractb_sound (ws : Worksheet) :
  template_contractb ws = true -> template_contract ws.
Proof.
  unfold template_contractb. intros H. apply andb_prop in H as [Hv Hd]. split.
  - apply List.Forall_forall. rewrite forallb_forall in Hv.
    intros r Hr. by apply valid_anchorb_sound, Hv.
  - by apply pairwise_disjoint_sound.
Qed.

Lemma grid_unmergedb_sound (ws : Worksheet) :
  grid_unmergedb ws = true -> grid_unmerged ws.
Proof.
  unfold grid_unmergedb. intros H a i Hi.
  rewrite forallb_forall in H.
  assert (In a all_attrs) as Ha by (destruct a; simpl; tauto).
  specialize (H a Ha). rewrite forallb_forall in H.
  assert (In i (seq 0 6)) as Hin by (apply in_seq; lia).
  specialize (H i Hin). by apply negb_true_iff in H.
Qed.

(** ** Bounds and absent columns *)

Lemma slots_used_le (df : Pd.DataFrame) (max_plan : Z) :
  max_plan <= 6 -> (slots_used df max_plan <= 6)%nat.
Proof. unfold slots_used. lia. Qed.

Lemma absent_column_line_value (df : Pd.DataFrame) (i : nat) (a : attr) :
  Pd.has_column df (attr_column a) = false -> line_value df i a = VNone.
Proof.
  intros Hc. unfold line_value. rewrite iloc_nat.
  destruct (Pd.rows df !! i) as [r|]; [|done]. simpl.
  unfold Pd.get. simpl. by rewrite lookup_label_absent.
Qed.


(** ** The header loop and the whole call *)

Lemma write_result_merged (coord : string) (v : value) (ws : Worksheet) :
  merged_cells (write_result coord v ws) = merged_cells ws.
Proof.
  unfold write_result. destruct (coordinate_to_tuple coord); [|done].
  by destruct (bool_decide (v = VNone)).
Qed.

Lemma header_result_merged (asg : list (string * value)) (ws : Worksheet) :
  merged_cells (header_result asg ws) = merged_cells ws.
Proof.
  unfold header_result. revert ws.
  induction asg as [|cv asg IH]; intros ws; simpl; [done|].
  by rewrite IH, write_result_merged.
Qed.

Lemma fill_header_spec (asg : list (string * value)) (ws : Worksheet) :
  template_contract ws ->
  Forall (fun cv => header_key cv.1) asg ->
  fill_header asg ws = (Ok tt, header_result asg ws).
Proof.
  intros Ht Hk. revert ws Ht. unfold fill_header, header_result.
  induction Hk as [|cv asg (rc & Hp & _) _ IH]; intros ws Ht; simpl; [done|].
  unfold bind. rewrite (write_into_merged_resolve _ _ rc ws Ht Hp).
  assert (write_result cv.1 cv.2 ws =
          if bool_decide (cv.2 = VNone) then ws
          else set_cell (resolve (merged_cells ws) rc) cv.2 ws) as Hw.
  { unfold write_result. by rewrite Hp. }
  destruct (bool_decide (cv.2 = VNone)); rewrite Hw; apply IH; [done|].
  destruct Ht as [Hv Hd]. by split.
Qed.

Lemma resolve_row (ranges : list CellRange) (rc : Z * Z) :
  (resolve ranges rc).1 <= rc.1.
Proof.
  unfold resolve.
  destruct (find (fun r => range_contains r rc) ranges) as [r|] eqn:E; [|lia].
  apply find_some in E as [_ Hc]. unfold range_contains in Hc.
  repeat (apply andb_prop in Hc as [Hc ?]). simpl. lia.
Qed.

(** The header writes stay in rows 1 to 8. *)
Lemma header_result_frame (asg : list (string * value)) (ws : Worksheet) (c : Z * Z) :
  Forall (fun cv => header_key cv.1) asg -> 9 <= c.1 ->
  cells (header_result asg ws) !! c = cells ws !! c.
Proof.
  intros Hk Hc. revert ws. unfold header_result.
  induction Hk as [|cv asg (rc & Hp & Hrow) _ IH]; intros ws; simpl; [done|].
  rewrite IH. unfold write_result. rewrite Hp.
  destruct (bool_decide (cv.2 = VNone)); [done|]. simpl.
  apply lookup_insert_ne. intros E.
  pose proof (resolve_row (merged_cells ws) rc) as Hr. rewrite E in Hr. lia.
Qed.

Lemma slot_cell_row (a : attr) (i : nat) : 9 <= (slot_cell a i).1.
Proof. destruct a; simpl; lia. Qed.

Lemma assignments_keys {rt : Runtime} (row : Pd.Series) (asg : list (string * value)) :
  assignments row = Ok asg -> Forall (fun cv => header_key cv.1) asg.
Proof.
  unfold assignments. destruct (creation_date row); [|discriminate].
  intros [= <-].
  repeat (apply List.Forall_cons; [eexists; split; [vm_compute; reflexivity|simpl; lia]|]).
  apply List.Forall_nil.
Qed.

(** A call that is [ready], with a capacity of at most 6, returns: the
    sheet of the workbook it returns is the template sheet after the
    header writes and the grid writes. *)
Lemma populate_fiche_ready {rt : Runtime}
    (df_gen df_lines : Pd.DataFrame) (template : Workbook) (row_index max_plan : Z)
    (row : Pd.Series) (ws : Worksheet) (asg : list (string * value)) :
  ready df_gen row_index template row ws asg ->
  max_plan <= 6 ->
  populate_fiche df_gen df_lines template row_index max_plan =
    (Ok (<[SHEET := grid_result df_lines (slots_used df_lines max_plan)
                       (header_result asg ws)]> template, file_name row),
     Some (<[SHEET := grid_result df_lines (slots_used df_lines max_plan)
                        (header_result asg ws)]> template)).
Proof.
  intros [He Hrow Hws Ht Hg Hasg] H6. unfold populate_fiche.
  rewrite He, Hrow, Hws, Hasg. unfold bind.
  rewrite (fill_header_spec asg ws Ht (assignments_keys row asg Hasg)).
  rewrite fill_grid_spec; [done|by apply slots_used_le|].
  intros a i Hi. rewrite header_result_merged. by apply Hg.
Qed.

(** What a slot cell holds in the sheet such a call returns. *)
Lemma populate_grid_cell (df_lines : Pd.DataFrame) (k : nat)
    (asg : list (string * value)) (ws : Worksheet) (a : attr) (i : nat) :
  Forall (fun cv => header_key cv.1) asg ->
  cells (grid_result df_lines k (header_result asg ws)) !! slot_cell a i =
    if decide (i < k)%nat
    then (if notna (line_value df_lines i a) then Some (line_value df_lines i a)
          else cells ws !! slot_cell a i)
    else cells ws !! slot_cell a i.
Proof.
  intros Hk. rewrite grid_result_lookup.
  by rewrite (header_result_frame asg ws _ Hk (slot_cell_row a i)).
Qed.

(** ** The cells of the sheet a call returns *)

Lemma header_result_snoc (asg : list (string * value)) (cv : string * value)
    (ws : Worksheet) :
  header_result (asg ++ [cv]) ws = write_result cv.1 cv.2 (header_result asg ws).
Proof. unfold header_result. by rewrite foldl_app. Qed.

Lemma header_result_lookup (asg : list (string * value)) (ws : Worksheet) (c : Z * Z) :
  cells (header_result asg ws) !! c =
    match header_value (merged_cells ws) asg c with
    | Some v => Some v
    | None => cells ws !! c
    end.
Proof.
  induction asg as [|cv asg IH] using rev_ind; [done|].
  rewrite header_result_snoc. unfold header_value. rewrite foldl_app. simpl.
  fold (header_value (merged_cells ws) asg c).
  unfold write_result. rewrite header_result_merged.
  destruct (coordinate_to_tuple cv.1) as [rc|]; [|exact IH].
  destruct (decide (cv.2 = VNone)) as [E|E].
  - rewrite (bool_decide_eq_true_2 _ E), bool_decide_eq_false_2 by tauto. exact IH.
  - rewrite (bool_decide_eq_false_2 _ E), (bool_decide_eq_true_2 (cv.2 <> VNone)) by done.
    simpl. destruct (decide (resolve (merged_cells ws) rc = c)) as [<-|Hne].
    + rewrite bool_decide_eq_true_2 by done. apply lookup_insert_eq.
    + rewrite bool_decide_eq_false_2 by done. rewrite lookup_insert_ne by done. exact IH.
Qed.

Lemma slot_of_Some (k : nat) (c : Z * Z) (a : attr) (i : nat) :
  slot_of k c = Some (a, i) -> c = slot_cell a i /\ (i < k)%nat.
Proof.
  unfold slot_of. intros H. apply find_some in H as [Hin Hc].
  apply bool_decide_eq_true in Hc. split; [done|].
  apply in_flat_map in Hin as (b & _ & Hin).
  apply in_map_iff in Hin as (j & [= <- <-] & Hj). apply in_seq in Hj. lia.
Qed.

Lemma slot_of_None (k : nat) (c : Z * Z) (a : attr) (i : nat) :
  slot_of k c = None -> (i < k)%nat -> c <> slot_cell a i.
Proof.
  unfold slot_of. intros H Hi Hc.
  assert (In (a, i) (flat_map (fun a => map (fun i => (a, i)) (seq 0 k)) all_attrs))
    as Hin.
  { apply in_flat_map. exists a. split; [destruct a; simpl; tauto|].
    apply in_map_iff. exists i. split; [done|]. apply in_seq. lia. }
  pose proof (find_none _ _ H (a, i) Hin) as H'. cbv beta in H'. simpl fst in H'.
  simpl snd in H'. by rewrite bool_decide_eq_true_2 in H'.
Qed.

Lemma grid_result_cell (df : Pd.DataFrame) (k : nat) (ws : Worksheet) (c : Z * Z) :
  cells (grid_result df k ws) !! c =
    match grid_value df k c with
    | Some v => Some v
    | None => cells ws !! c
    end.
Proof.
  unfold grid_value. destruct (slot_of k c) as [[a i]|] eqn:E.
  - apply slot_of_Some in E as [-> Hi].
    rewrite grid_result_lookup, decide_True by done.
    by destruct (notna (line_value df i a)).
  - apply grid_result_frame. intros a i Hi. by eapply slot_of_None.
Qed.

Lemma grid_value_row (df : Pd.DataFrame) (k : nat) (c : Z * Z) (v : value) :
  grid_value df k c = Some v -> 9 <= c.1.
Proof.
  unfold grid_value. destruct (slot_of k c) as [[a i]|] eqn:E; [|done].
  intros _. apply slot_of_Some in E as [-> _]. apply slot_cell_row.
Qed.

(** The sheet of a ready call, cell by cell. *)
Lemma populated_sheet_cell (df_lines : Pd.DataFrame) (k : nat)
    (asg : list (string * value)) (ws : Worksheet) (c : Z * Z) :
  cells (grid_result df_lines k (header_result asg ws)) !! c =
    populated_cell df_lines k asg ws c.
Proof.
  unfold populated_cell. rewrite grid_result_cell.
  destruct (grid_value df_lines k c); [done|]. apply header_result_lookup.
Qed.

Lemma worksheet_eq (ws1 ws2 : Worksheet) :
  merged_cells ws1 = merged_cells ws2 ->
  (forall c, cells ws1 !! c = cells ws2 !! c) -> ws1 = ws2.
Proof.
  destruct ws1 as [c1 m1], ws2 as [c2 m2]. simpl. intros -> H.
  f_equal. by apply map_eq.
Qed.

(** Running the writes of a call on the sheet they produced changes
    nothing. *)
Lemma populated_sheet_fixpoint (df_lines : Pd.DataFrame) (k : nat)
    (asg : list (string * value)) (ws : Worksheet) :
  grid_result df_lines k
    (header_result asg (grid_result df_lines k (header_result asg ws))) =
  grid_result df_lines k (header_result asg ws).
Proof.
  apply worksheet_eq.
  - by rewrite !grid_result_merged, !header_result_merged, !grid_result_merged,
      !header_result_merged.
  - intros c. rewrite populated_sheet_cell. unfold populated_cell.
    rewrite grid_result_merged, header_result_merged.
    rewrite populated_sheet_cell. unfold populated_cell.
    destruct (grid_value df_lines k c); [done|].
    by destruct (header_value (merged_cells ws) asg c).
Qed.


(** ** The header, field by field *)

Lemma assignments_inv {rt : Runtime} (row : Pd.Series) (asg : list (string * value)) :
  assignments row = Ok asg ->
  exists d, creation_date row = Ok d /\
    asg = [ ("M1", get_val row "Nom du client");
            ("T1", get_val row "Numéro d' OF");
            ("K2", get_val row "Nom du plan");
            ("T2", get_val row "Indice plan");
            ("X2", d);
            ("X4", get_val row "Matière");
            ("X5", get_val row "Couleur");
            ("X6", get_val row "Tolérance Générale");
            ("X7", get_val row "RA mini");
            ("X8", get_val row "Cassage Angles Vifs") ].
Proof.
  unfold assignments. destruct (creation_date row) as [d|e]; [|discriminate].
  intros [= <-]. by exists d.
Qed.

Lemma header_cells_eq :
  header_cells =
    [(1, 13); (1, 20); (2, 11); (2, 20); (2, 24); (4, 24); (5, 24); (6, 24); (7, 24);
     (8, 24)].
Proof. vm_compute. reflexivity. Qed.

Lemma assignments_cells {rt : Runtime} (row : Pd.Series) (asg : list (string * value)) :
  assignments row = Ok asg ->
  Forall2 (fun cv c => coordinate_to_tuple cv.1 = Some c) asg header_cells.
Proof.
  intros H. apply assignments_inv in H as (d & _ & ->). rewrite header_cells_eq.
  repeat (apply List.Forall2_cons; [vm_compute; reflexivity|]). apply List.Forall2_nil.
Qed.

Lemma header_cell_row (c : Z * Z) : In c header_cells -> c.1 <= 8.
Proof.
  rewrite header_cells_eq. simpl.
  intros H. repeat (destruct H as [<-|H]; [simpl; lia|]). done.
Qed.

(** An assignment list none of whose coordinates resolves to [c] leaves
    the value for [c] as it was. *)
Lemma header_value_miss (ranges : list CellRange) (asg : list (string * value))
    (cs : list (Z * Z)) (c : Z * Z) (acc : option value) :
  Forall2 (fun cv c' => coordinate_to_tuple cv.1 = Some c') asg cs ->
  ~ In c (map (resolve ranges) cs) ->
  foldl (fun acc cv =>
           match coordinate_to_tuple cv.1 with
           | Some rc =>
               if bool_decide (cv.2 <> VNone) && bool_decide (resolve ranges rc = c)
               then Some cv.2 else acc
           | None => acc
           end) acc asg = acc.
Proof.
  intros H. revert acc. induction H as [|cv c' asg cs Hc _ IH]; intros acc Hn; [done|].
  simpl in *. rewrite Hc.
  rewrite (bool_decide_eq_false_2 (resolve ranges c' = c)) by tauto.
  rewrite andb_false_r. apply IH. tauto.
Qed.

(** When the coordinates resolve to cells that are all different, the
    value for the cell of one assignment is the value of that
    assignment, unless it is [None]. *)
Lemma header_value_apart (ranges : list CellRange) (asg : list (string * value))
    (cs : list (Z * Z)) (i : nat) (cv : string * value) (c : Z * Z) :
  Forall2 (fun cv c' => coordinate_to_tuple cv.1 = Some c') asg cs ->
  NoDup (map (resolve ranges) cs) ->
  asg !! i = Some cv -> cs !! i = Some c ->
  header_value ranges asg (resolve ranges c) =
    if bool_decide (cv.2 = VNone) then None else Some cv.2.
Proof.
  unfold header_value. generalize (@None value) as acc.
  intros acc H. revert i acc.
  induction H as [|cv0 c0 asg cs Hc H IH]; intros i acc Hnd Hi Hj; [done|].
  simpl in Hnd. apply NoDup_cons in Hnd as [Hnot Hnd].
  destruct i as [|i]; simpl in Hi, Hj.
  - injection Hi as ->. injection Hj as ->. simpl. rewrite Hc.
    rewrite (bool_decide_eq_true_2 (resolve ranges c = resolve ranges c)) by done.
    rewrite andb_true_r.
    rewrite (header_value_miss ranges asg cs _ _ H).
    + destruct (decide (cv.2 = VNone)) as [E|E].
      * by rewrite (bool_decide_eq_true_2 _ E), bool_decide_eq_false_2 by tauto.
      * by rewrite (bool_decide_eq_false_2 _ E), bool_decide_eq_true_2.
    + intros Hin. apply Hnot. by apply list_elem_of_In.
  - simpl. rewrite Hc.
    rewrite (bool_decide_eq_false_2 (resolve ranges c0 = resolve ranges c)).
    + rewrite andb_false_r. by apply (IH i).
    + intros E. apply Hnot. rewrite E. apply list_elem_of_In, in_map.
      apply list_elem_of_In. by eapply list_elem_of_lookup_2.
Qed.

(** The cell of a header field in the sheet a ready call returns, when
    every header field has a cell of its own: the value of the field, or
    what the template held when the value is [None]. *)
Lemma populated_header_cell {rt : Runtime} (df_lines : Pd.DataFrame) (k : nat)
    (row : Pd.Series) (asg : list (string * value)) (ws : Worksheet)
    (i : nat) (cv : string * value) (c : Z * Z) :
  assignments row = Ok asg ->
  header_cells_apart ws ->
  asg !! i = Some cv -> header_cells !! i = Some c ->
  cells (grid_result df_lines k (header_result asg ws)) !! resolve (merged_cells ws) c =
    if bool_decide (cv.2 = VNone) then cells ws !! resolve (merged_cells ws) c
    else Some cv.2.
Proof.
  intros Hasg Hnd Hi Hj. rewrite populated_sheet_cell. unfold populated_cell.
  destruct (grid_value df_lines k (resolve (merged_cells ws) c)) as [v|] eqn:Eg.
  - apply grid_value_row in Eg.
    pose proof (resolve_row (merged_cells ws) c).
    assert (c.1 <= 8); [|lia].
    apply header_cell_row, list_elem_of_In. by eapply list_elem_of_lookup_2.
  - rewrite (header_value_apart _ asg header_cells i cv c
               (assignments_cells row asg Hasg) Hnd Hi Hj).
    by destruct (bool_decide (cv.2 = VNone)).
Qed.


(** ** Claims about the measurement grid *)

(** C5 (as amended). For a slot capacity of at most 6, the number of
    slot coordinates the layout lists, a call that is ready returns, and
    in the sheet it returns the first [min(capacity, n)] slots are filled
    (none when that is not positive): slot [i] below that bound holds the
    values of line record [i] that are not null, and every slot from the
    bound on is as the template had it, so the records past the bound are
    ignored. *)
Theorem C5_slot_capacity_clamp {rt : Runtime}
    (df_gen df_lines : Pd.DataFrame) (template : Workbook) (row_index max_plan : Z)
    (row : Pd.Series) (ws : Worksheet) (asg : list (string * value)) :
  ready df_gen row_index template row ws asg ->
  max_plan <= 6 ->
  exists wb' ws',
    populate_fiche df_gen df_lines template row_index max_plan =
      (Ok (wb', file_name row), Some wb') /\
    wb' !! SHEET = Some ws' /\
    (forall a i, (i < Z.to_nat (Z.min max_plan (Pd.len df_lines)))%nat ->
       cells ws' !! slot_cell a i =
         if notna (line_value df_lines i a) then Some (line_value df_lines i a)
         else cells ws !! slot_cell a i) /\
    (forall a i, (Z.to_nat (Z.min max_plan (Pd.len df_lines)) <= i)%nat ->
       cells ws' !! slot_cell a i = cells ws !! slot_cell a i).
Proof.
  intros Hready H6.
  pose proof (assignments_keys row asg (ready_assignments _ _ _ _ _ _ Hready)) as Hk.
  eexists _, _. split; [by apply populate_fiche_ready|].
  split; [apply lookup_insert_eq|]. split.
  - intros a i Hi. rewrite (populate_grid_cell _ _ _ _ _ _ Hk).
    by rewrite decide_True.
  - intros a i Hi. rewrite (populate_grid_cell _ _ _ _ _ _ Hk).
    rewrite decide_False; [done|]. unfold slots_used. lia.
Qed.


(** C7. When the line table has no column for one of the five
    attributes, a call that is ready still returns; in the sheet it
    returns the cell of that attribute is as the template had it in every
    slot, and every attribute whose column is there is filled from it. *)
Theorem C7_absent_column_skipped {rt : Runtime}
    (df_gen df_lines : Pd.DataFrame) (template : Workbook) (row_index max_plan : Z)
    (row : Pd.Series) (ws : Worksheet) (asg : list (string * value)) (a : attr) :
  ready df_gen row_index template row ws asg ->
  max_plan <= 6 ->
  Pd.has_column df_lines (attr_column a) = false ->
  exists wb' ws',
    populate_fiche df_gen df_lines template row_index max_plan =
      (Ok (wb', file_name row), Some wb') /\
    wb' !! SHEET = Some ws' /\
    (forall i, cells ws' !! slot_cell a i = cells ws !! slot_cell a i) /\
    (forall b i, Pd.has_column df_lines (attr_column b) = true ->
       (i < Z.to_nat (Z.min max_plan (Pd.len df_lines)))%nat ->
       cells ws' !! slot_cell b i =
         if notna (line_value df_lines i b) then Some (line_value df_lines i b)
         else cells ws !! slot_cell b i).
Proof.
  intros Hready H6 Ha.
  pose proof (assignments_keys row asg (ready_assignments _ _ _ _ _ _ Hready)) as Hk.
  eexists _, _. split; [by apply populate_fiche_ready|].
  split; [apply lookup_insert_eq|]. split.
  - intros i. rewrite (populate_grid_cell _ _ _ _ _ _ Hk).
    rewrite (absent_column_line_value _ _ _ Ha). simpl. by case_decide.
  - intros b i _ Hi. rewrite (populate_grid_cell _ _ _ _ _ _ Hk).
    by rewrite decide_True.
Qed.

(** ** Claims about the general record *)

(** C2. A general table without rows makes [populate_fiche] raise the
    [ValueError] of the empty sheet at once: the template has not been
    loaded at that point, so no workbook is in memory and nothing has
    been written. *)
Theorem C2_empty_general_raises_first {rt : Runtime}
    (df_gen df_lines : Pd.DataFrame) (template : Workbook) (row_index max_plan : Z) :
  Pd.rows df_gen = [] ->
  populate_fiche df_gen df_lines template row_index max_plan =
    (Raise (ValueError "Sheet 'Dossier Technique_general' is empty."), None).
Proof.
  intros Hrows. unfold populate_fiche, Pd.empty. rewrite Hrows.
  by destruct (Pd.columns df_gen).
Qed.

Lemma creation_date_present {rt : Runtime} (row : Pd.Series) :
  isna (Pd.get row "Date de création") = false ->
  creation_date row =
    match to_datetime (Pd.get row "Date de création") with
    | Some (Some t) =>
        match timestamp_date t with
        | Some d => Ok (VDate d)
        | None => Raise NotImplementedError
        end
    | Some None => Ok VNaT
    | None => Raise ConversionError
    end.
Proof.
  intros Hna. unfold creation_date, get_val, notna. cbv zeta.
  rewrite Hna. simpl. by rewrite Hna.
Qed.

(** C3 (as amended). When the creation date of the record is not null
    and [pd.to_datetime] raises on it, [populate_fiche] raises that error
    to its caller: this happens while the assignments are built, so the
    workbook in memory is still the template as loaded, and no document
    is returned. *)
Theorem C3_unparsable_date_propagates {rt : Runtime}
    (df_gen df_lines : Pd.DataFrame) (template : Workbook) (row_index max_plan : Z)
    (row : Pd.Series) (ws : Worksheet) :
  Pd.empty df_gen = false ->
  Pd.iloc df_gen row_index = Some row ->
  template !! SHEET = Some ws ->
  isna (Pd.get row "Date de création") = false ->
  to_datetime (Pd.get row "Date de création") = None ->
  populate_fiche df_gen df_lines template row_index max_plan =
    (Raise ConversionError, Some template).
Proof.
  intros He Hrow Hws Hna Hconv. unfold populate_fiche.
  rewrite He, Hrow, Hws. unfold assignments.
  by rewrite (creation_date_present row Hna), Hconv.
Qed.

(** C8. A creation date that is not null and that [pd.to_datetime]
    converts to a timestamp within the range of [datetime.date] is
    written as the calendar date of that timestamp, whatever its time of
    day: a call that is ready, on a template where every header field
    has a cell of its own, returns a sheet whose date cell (the cell X2
    resolves to) holds that date, a value without hours, minutes or
    seconds. *)
Theorem C8_creation_date_truncated {rt : Runtime}
    (df_gen df_lines : Pd.DataFrame) (template : Workbook) (row_index max_plan : Z)
    (row : Pd.Series) (ws : Worksheet) (asg : list (string * value))
    (t : Timestamp) :
  ready df_gen row_index template row ws asg ->
  max_plan <= 6 ->
  header_cells_apart ws ->
  isna (Pd.get row "Date de création") = false ->
  to_datetime (Pd.get row "Date de création") = Some (Some t) ->
  date_in_range (ts_year t) (ts_month t) (ts_day t) = true ->
  exists wb' ws',
    populate_fiche df_gen df_lines template row_index max_plan =
      (Ok (wb', file_name row), Some wb') /\
    wb' !! SHEET = Some ws' /\
    cells ws' !! resolve (merged_cells ws) (2, 24) =
      Some (VDate (mkDate (ts_year t) (ts_month t) (ts_day t))).
Proof.
  intros Hready H6 Hnd Hna Hconv Hrange.
  pose proof (ready_assignments _ _ _ _ _ _ Hready) as Hasg.
  eexists _, _. split; [by apply populate_fiche_ready|].
  split; [apply lookup_insert_eq|].
  destruct (assignments_inv row asg Hasg) as (d & Hd & Easg).
  rewrite (creation_date_present row Hna), Hconv in Hd.
  unfold timestamp_date in Hd. rewrite Hrange in Hd. injection Hd as <-.
  rewrite (populated_header_cell df_lines _ row asg ws 4 ("X2", VDate (date_of t))
             (2, 24) Hasg Hnd); [done|by rewrite Easg|by rewrite header_cells_eq].
Qed.

Lemma truthy_false_iff (v : value) : truthy v = false <-> falsy_value v.
Proof.
  unfold falsy_value. split.
  - destruct v as [|[]|n|f|s| | |]; simpl; intros H; try discriminate; auto.
    + apply negb_false_iff, Z.eqb_eq in H. subst. auto.
    + destruct f; try discriminate. eauto 10.
    + apply negb_false_iff, String.eqb_eq in H. subst. auto.
  - intros [->|[->|[->|[->|[s ->]]]]]; reflexivity.
Qed.

(** C10. The identifier falls back to the Koncile ID exactly when the
    work-order value is one Python takes as false: [None], zero or the
    empty string.  Any other value is the identifier itself, and NaN is
    such a value: a work-order cell that holds NaN gives the identifier
    ["nan"], not the Koncile ID. *)
Theorem C10_fallback_only_on_falsy {rt : Runtime} (row : Pd.Series) :
  (truthy (Pd.get row "Numéro d' OF") = false <->
     falsy_value (Pd.get row "Numéro d' OF")) /\
  (truthy (Pd.get row "Numéro d' OF") = false ->
     num_of row = str (py_or (Pd.get row "Koncile ID") (VStr ""))) /\
  (truthy (Pd.get row "Numéro d' OF") = true ->
     num_of row = str (Pd.get row "Numéro d' OF")) /\
  (Pd.get row "Numéro d' OF" = VNaN ->
     truthy (Pd.get row "Numéro d' OF") = true /\ num_of row = "nan").
Proof.
  split; [apply truthy_false_iff|]. unfold num_of, py_or.
  split; [|split].
  - intros ->. reflexivity.
  - intros H. by rewrite !H.
  - intros ->. split; reflexivity.
Qed.

(** ** Independence from the order of the merged ranges *)

Lemma is_merged_cell_perm (l1 l2 : list CellRange) (rc : Z * Z) :
  Permutation l1 l2 -> is_merged_cell l1 rc = is_merged_cell l2 rc.
Proof.
  unfold is_merged_cell. induction 1 as [|r l1 l2 _ IH|r1 r2 l|l1 l2 l3 _ IH1 _ IH2]; simpl.
  - reflexivity.
  - by rewrite IH.
  - rewrite !orb_assoc. f_equal. apply orb_comm.
  - by rewrite IH1.
Qed.

Lemma at_most_one_range_perm (l1 l2 : list CellRange) :
  Permutation l1 l2 -> at_most_one_range l1 -> at_most_one_range l2.
Proof.
  intros Hp H r1 r2 rc H1 H2. apply (H r1 r2 rc).
  - by apply (Permutation_in _ (Permutation_sym Hp)).
  - by apply (Permutation_in _ (Permutation_sym Hp)).
Qed.

Lemma resolve_perm (l1 l2 : list CellRange) (rc : Z * Z) :
  Permutation l1 l2 -> at_most_one_range l1 -> resolve l1 rc = resolve l2 rc.
Proof.
  intros Hp Hd.
  pose proof (at_most_one_range_perm _ _ Hp Hd) as Hd2.
  destruct (find (fun r => range_contains r rc) l1) as [r|] eqn:E.
  - apply find_some in E as [Hin Hc].
    rewrite (resolve_first l1 rc r), (resolve_first l2 rc r); try done.
    by apply (Permutation_in _ Hp).
  - rewrite !resolve_outside; [done| |].
    + intros r Hin. apply (Permutation_in _ (Permutation_sym Hp)) in Hin.
      apply (find_none _ _ E r Hin).
    + intros r Hin. apply (find_none _ _ E r Hin).
Qed.

Lemma related_set_cell (rc : Z * Z) (v : value) (ws1 ws2 : Worksheet) :
  related ws1 ws2 -> related (set_cell rc v ws1) (set_cell rc v ws2).
Proof.
  intros [[Hc Hp] [H1 H2]]. repeat split; simpl; try done; try apply H1; try apply H2.
  by rewrite Hc.
Qed.

Lemma respects_ret {A} (a : A) : respects (ret a).
Proof. intros ws1 ws2 H. by split. Qed.

Lemma respects_raise {A} (e : exn) : respects (@raise A e).
Proof. intros ws1 ws2 H. by split. Qed.

Lemma respects_bind {A B} (m : W A) (k : A -> W B) :
  respects m -> (forall a, respects (k a)) -> respects (bind m k).
Proof.
  intros Hm Hk ws1 ws2 H. unfold bind.
  destruct (Hm ws1 ws2 H) as [Ho Hr].
  destruct (m ws1) as [o1 w1], (m ws2) as [o2 w2]. simpl in *. subst o2.
  destruct o1 as [a|e]; [by apply Hk|by split].
Qed.

Lemma respects_for_each {A} (xs : list A) (body : A -> W unit) :
  (forall x, respects (body x)) -> respects (for_each xs body).
Proof.
  intros Hb. induction xs as [|x xs IH]; simpl.
  - apply respects_ret.
  - apply respects_bind; [apply Hb|intros _; apply IH].
Qed.

Lemma respects_setitem (key : string) (v : value) : respects (setitem key v).
Proof.
  intros ws1 ws2 H. unfold setitem.
  destruct (coordinate_to_tuple key) as [rc|]; [|by split].
  pose proof H as [[_ Hp] _].
  rewrite (is_merged_cell_perm _ _ rc Hp).
  destruct (is_merged_cell (merged_cells ws2) rc); [by split|].
  split; [done|]. by apply related_set_cell.
Qed.

Lemma write_into_merged_bad_coordinate (coord : string) (v : value) (ws : Worksheet) :
  coordinate_to_tuple coord = None ->
  write_into_merged coord v ws =
    if bool_decide (v = VNone) then (Ok tt, ws) else (Raise (ValueError coord), ws).
Proof.
  intros Hp. unfold write_into_merged.
  destruct v; try reflexivity;
    (destruct (merged_cells ws); simpl; unfold setitem, raise; by rewrite Hp).
Qed.

Lemma respects_write_into_merged (coord : string) (v : value) :
  respects (write_into_merged coord v).
Proof.
  intros ws1 ws2 H. pose proof H as [[Hc Hp] [H1 H2]].
  destruct (coordinate_to_tuple coord) as [rc|] eqn:E.
  - rewrite !(write_into_merged_resolve coord v rc) by done.
    destruct (bool_decide (v = VNone)); [by split|].
    rewrite (resolve_perm _ _ rc Hp) by apply H1.
    split; [done|]. by apply related_set_cell.
  - rewrite !write_into_merged_bad_coordinate by done.
    destruct (bool_decide (v = VNone)); by split.
Qed.

Lemma respects_write_slot (cs : list string) (i : nat) (v : value) :
  respects (write_slot cs i v).
Proof.
  unfold write_slot. destruct (notna v); [|apply respects_ret].
  destruct (cs !! i); [apply respects_setitem|apply respects_raise].
Qed.

Lemma respects_fill_grid (df : Pd.DataFrame) (max_plan : Z) :
  respects (fill_grid df max_plan).
Proof.
  unfold fill_grid. destruct (keep df); [apply respects_ret|].
  apply respects_for_each. intros i. unfold fill_slot.
  destruct (Pd.iloc _ _); [|apply respects_raise].
  repeat (apply respects_bind; [apply respects_write_slot|intros _]).
  apply respects_write_slot.
Qed.

Lemma respects_fill_header (asg : list (string * value)) : respects (fill_header asg).
Proof.
  apply respects_for_each. intros cv. apply respects_write_into_merged.
Qed.

Lemma template_contract_perm (ws1 ws2 : Worksheet) :
  Permutation (merged_cells ws1) (merged_cells ws2) ->
  template_contract ws1 -> template_contract ws2.
Proof.
  intros Hp [Hv Hd]. split.
  - by eapply Permutation_Forall.
  - by eapply at_most_one_range_perm.
Qed.

(** C9. [populate_fiche] is a function of its inputs, and more: run on
    two copies of a template that hold the same cells and the same
    non-overlapping merged ranges, in whatever order each copy lists
    them, the two calls raise the same exception or return the same file
    name and workbooks with the same cell values. *)
Theorem C9_populate_deterministic {rt : Runtime}
    (df_gen df_lines : Pd.DataFrame) (tpl1 tpl2 : Workbook) (row_index max_plan : Z) :
  same_workbook tpl1 tpl2 ->
  (forall ws, tpl1 !! SHEET = Some ws -> template_contract ws) ->
  same_result (populate_fiche df_gen df_lines tpl1 row_index max_plan).1
              (populate_fiche df_gen df_lines tpl2 row_index max_plan).1.
Proof.
  intros Hwb Hct. unfold populate_fiche.
  destruct (Pd.empty df_gen); [reflexivity|].
  destruct (Pd.iloc df_gen row_index) as [row|]; [|reflexivity].
  pose proof (Hwb SHEET) as Hs.
  destruct (tpl1 !! SHEET) as [ws1|] eqn:E1, (tpl2 !! SHEET) as [ws2|] eqn:E2;
    inversion Hs as [? ? Hsame|]; subst; [|reflexivity].
  destruct (assignments row) as [asg|e]; [|reflexivity].
  assert (related ws1 ws2) as Hr.
  { pose proof (Hct ws1 eq_refl) as H1. split; [done|]. split; [done|].
    eapply template_contract_perm; [apply Hsame|done]. }
  destruct (respects_bind (fill_header asg) (fun _ => fill_grid df_lines max_plan)
              (respects_fill_header asg) (fun _ => respects_fill_grid df_lines max_plan)
              ws1 ws2 Hr) as [Ho Hr'].
  destruct ((fill_header asg ;;; fill_grid df_lines max_plan) ws1) as [o1 w1].
  destruct ((fill_header asg ;;; fill_grid df_lines max_plan) ws2) as [o2 w2].
  simpl in Ho, Hr'. subst o2. destruct o1 as [[]|e]; simpl; [|reflexivity].
  split; [reflexivity|]. intros title.
  destruct (decide (title = SHEET)) as [->|Hne].
  - rewrite !lookup_insert_eq. constructor. apply Hr'.
  - rewrite !lookup_insert_ne by done. apply Hwb.
Qed.

(** ** The claims on sample inputs *)

Lemma sample_sheet_contract : template_contract Sample.sheet.
Proof. apply template_contractb_sound. vm_compute. reflexivity. Qed.

Lemma sample_sheet_grid : grid_unmerged Sample.sheet.
Proof. apply grid_unmergedb_sound. vm_compute. reflexivity. Qed.

(** N1 lies in the merged range M1:S1 and is written at M1; K2 lies in
    no merged range and is written where it is. *)
Lemma C1_witness :
  write_into_merged "N1" (VStr "ACME") Sample.sheet =
    (Ok tt, set_cell (1, 13) (VStr "ACME") Sample.sheet) /\
  write_into_merged "K2" (VStr "P-12") Sample.sheet =
    (Ok tt, set_cell (2, 11) (VStr "P-12") Sample.sheet).
Proof.
  split.
  - destruct (C1_write_lands_on_anchor Sample.sheet "N1" (1, 14) (VStr "ACME"))
      as [H _]; [apply sample_sheet_contract|reflexivity|discriminate|].
    apply (H Sample.client_range); [simpl; tauto|reflexivity].
  - destruct (C1_write_lands_on_anchor Sample.sheet "K2" (2, 11) (VStr "P-12"))
      as [_ H]; [apply sample_sheet_contract|reflexivity|discriminate|].
    apply H. intros rng [<-|[<-|[]]]; reflexivity.
Defined.

(** A general table with its header and no row. *)
Lemma C2_witness :
  populate_fiche (rt := Ref.iso_runtime) Sample.gen_empty Sample.lines3
    Sample.template 0 6 =
    (Raise (ValueError "Sheet 'Dossier Technique_general' is empty."), None).
Proof. apply C2_empty_general_raises_first. reflexivity. Defined.

(** The claim as stated fails on text that is not a date: the cell is
    not null, [pd.to_datetime] raises on it, and so does
    [populate_fiche]. *)
Lemma C3_counterexample :
  isna (Pd.get (Sample.first_row Sample.gen_bad_date) "Date de création") = false /\
  to_datetime (rt := Ref.iso_runtime)
    (Pd.get (Sample.first_row Sample.gen_bad_date) "Date de création") = None /\
  (populate_fiche (rt := Ref.iso_runtime) Sample.gen_bad_date Sample.lines3
     Sample.template 0 6).1 = Raise ConversionError.
Proof. repeat split; vm_compute; reflexivity. Qed.

(** The template is in memory, untouched, when the error is raised. *)
Lemma C3_witness :
  populate_fiche (rt := Ref.iso_runtime) Sample.gen_bad_date Sample.lines3
    Sample.template 0 6 = (Raise ConversionError, Some Sample.template).
Proof.
  apply (C3_unparsable_date_propagates (rt := Ref.iso_runtime) _ _ _ _ _
           (Sample.first_row Sample.gen_bad_date) Sample.sheet);
    vm_compute; reflexivity.
Defined.

(** C4, at a record whose work-order cell is empty while its Koncile ID
    is K7: the file is named after ["nan"], where the claim has the
    Koncile ID. *)
Theorem C4_empty_work_order_names_file_nan :
  Pd.get (Sample.first_row Sample.gen_nan) "Numéro d' OF" = VNaN /\
  Pd.get (Sample.first_row Sample.gen_nan) "Koncile ID" = VStr "K7" /\
  returned_name
    (populate_fiche (rt := Ref.iso_runtime) Sample.gen_nan Sample.lines3
       Sample.template 0 6).1 = Some "Fiche de Contrôle - OF n° nan.xlsx".
Proof. repeat split; vm_compute; reflexivity. Qed.

(** With seven line records and a capacity of 7, the seventh slot has no
    coordinate: the call raises [IndexError] instead of filling
    [min(7, 7)] slots. *)
Lemma C5_counterexample :
  Z.min 7 (Pd.len Sample.lines7) = 7 /\
  (populate_fiche (rt := Ref.iso_runtime) Sample.gen_ok Sample.lines7
     Sample.template 0 7).1 = Raise IndexError.
Proof. split; vm_compute; reflexivity. Qed.

Lemma sample_ready :
  ready (rt := Ref.iso_runtime) Sample.gen_ok 0 Sample.template
    (Sample.first_row Sample.gen_ok) Sample.sheet Sample.asg_ok.
Proof.
  split; try (vm_compute; reflexivity).
  - apply sample_sheet_contract.
  - apply sample_sheet_grid.
Qed.

(** Seven records and the capacity 6: six slots are filled, the seventh
    coordinate of the row, S9, keeps what it held. *)
Lemma C5_witness :
  exists wb' ws',
    populate_fiche (rt := Ref.iso_runtime) Sample.gen_ok Sample.lines7
      Sample.template 0 6 =
      (Ok (wb', "Fiche de Contrôle - OF n° 4711.xlsx"), Some wb') /\
    wb' !! SHEET = Some ws' /\
    cells ws' !! (9, 7) = Some (VInt 10) /\
    cells ws' !! (9, 17) = Some (VInt 60) /\
    cells ws' !! (9, 19) = cells Sample.sheet !! (9, 19).
Proof.
  destruct (C5_slot_capacity_clamp (rt := Ref.iso_runtime) Sample.gen_ok Sample.lines7
              Sample.template 0 6 _ _ _ sample_ready)
    as (wb' & ws' & Hrun & Hws & Hin & Hout); [lia|].
  exists wb', ws'. split; [exact Hrun|]. split; [exact Hws|]. split; [|split].
  - apply (Hin Cote 0%nat). vm_compute. lia.
  - apply (Hin Cote 5%nat). vm_compute. lia.
  - apply (Hout Cote 6%nat). vm_compute. lia.
Defined.

Lemma sample_header_apart : header_cells_apart Sample.sheet.
Proof. apply (bool_decide_eq_true_1 _). vm_compute. reflexivity. Qed.


(** A line table without the measuring-tool column: F14 keeps what it
    held, the upper tolerance of the second record is in I10. *)
Lemma C7_witness :
  exists wb' ws',
    populate_fiche (rt := Ref.iso_runtime) Sample.gen_ok Sample.lines_no_tool
      Sample.template 0 6 =
      (Ok (wb', "Fiche de Contrôle - OF n° 4711.xlsx"), Some wb') /\
    wb' !! SHEET = Some ws' /\
    cells ws' !! (14, 6) = cells Sample.sheet !! (14, 6) /\
    cells ws' !! (10, 9) = Some (VFloat Sample.half).
Proof.
  destruct (C7_absent_column_skipped (rt := Ref.iso_runtime) Sample.gen_ok
              Sample.lines_no_tool Sample.template 0 6 _ _ _ Outil sample_ready)
    as (wb' & ws' & Hrun & Hws & Hskip & Hfill); [lia|reflexivity|].
  exists wb', ws'. split; [exact Hrun|]. split; [exact Hws|]. split.
  - apply (Hskip 0%nat).
  - apply (Hfill Plus 1%nat); [reflexivity|vm_compute; lia].
Defined.

(** 5 January 2024, 10:30 is written as 5 January 2024, at X2. *)
Lemma C8_witness :
  exists wb' ws',
    populate_fiche (rt := Ref.iso_runtime) Sample.gen_ok Sample.lines3
      Sample.template 0 6 =
      (Ok (wb', "Fiche de Contrôle - OF n° 4711.xlsx"), Some wb') /\
    wb' !! SHEET = Some ws' /\
    cells ws' !! (2, 24) = Some (VDate (mkDate 2024 1 5)).
Proof.
  apply (C8_creation_date_truncated (rt := Ref.iso_runtime) Sample.gen_ok
           Sample.lines3 Sample.template 0 6 _ _ _ Sample.morning sample_ready);
    [lia|apply sample_header_apart|reflexivity|reflexivity|reflexivity].
Defined.

Lemma sample_templates_same : same_workbook Sample.template Sample.template'.
Proof.
  intros title. unfold Sample.template, Sample.template'.
  destruct (decide (title = SHEET)) as [->|Hne].
  - rewrite !lookup_singleton_eq. constructor. split; [reflexivity|apply perm_swap].
  - rewrite !lookup_singleton_ne by done. constructor.
Qed.

(** The two sample templates list their merged ranges in opposite
    orders. *)
Lemma C9_witness :
  same_result
    (populate_fiche (rt := Ref.iso_runtime) Sample.gen_ok Sample.lines3
       Sample.template 0 6).1
    (populate_fiche (rt := Ref.iso_runtime) Sample.gen_ok Sample.lines3
       Sample.template' 0 6).1.
Proof.
  apply C9_populate_deterministic; [apply sample_templates_same|].
  intros ws Hws. unfold Sample.template in Hws.
  rewrite lookup_singleton_eq in Hws. injection Hws as <-.
  apply sample_sheet_contract.
Defined.

(** An empty work-order cell gives ["nan"], the number 4711 gives
    ["4711"]. *)
Lemma C10_witness :
  num_of (rt := Ref.iso_runtime) (Sample.first_row Sample.gen_nan) = "nan" /\
  num_of (rt := Ref.iso_runtime) (Sample.first_row Sample.gen_ok) = "4711".
Proof.
  split.
  - apply (C10_fallback_only_on_falsy (rt := Ref.iso_runtime)
             (Sample.first_row Sample.gen_nan)). reflexivity.
  - apply (C10_fallback_only_on_falsy (rt := Ref.iso_runtime)
             (Sample.first_row Sample.gen_ok)). reflexivity.
Defined.

(** * Further properties *)

(** ** The grid loop on the values of the line records *)

Lemma write_slot_null (cs : list string) (i : nat) (v : value) (ws : Worksheet) :
  isna v = true -> write_slot cs i v ws = (Ok tt, ws).
Proof. intros H. unfold write_slot, notna. by rewrite H. Qed.

Lemma fill_slot_line_values (df : Pd.DataFrame) (i : nat) (r : list value)
    (ws : Worksheet) :
  Pd.rows df !! i = Some r ->
  fill_slot (Pd.rename (Pd.select df (keep df)) col_map) i ws = slot_writes df i ws.
Proof.
  intros Hr. unfold fill_slot, slot_writes.
  destruct (renamed_get df i Cote r Hr) as (s & Hs & Hcote).
  destruct (renamed_get df i Plus r Hr) as (s1 & Hs1 & Hplus).
  destruct (renamed_get df i Minus r Hr) as (s2 & Hs2 & Hminus).
  destruct (renamed_get df i Moy r Hr) as (s3 & Hs3 & Hmoy).
  destruct (renamed_get df i Outil r Hr) as (s4 & Hs4 & Houtil).
  rewrite Hs in Hs1, Hs2, Hs3, Hs4.
  injection Hs1 as <-. injection Hs2 as <-. injection Hs3 as <-. injection Hs4 as <-.
  rewrite Hs. simpl in Hcote, Hplus, Hminus, Hmoy, Houtil.
  by rewrite Hcote, Hplus, Hminus, Hmoy, Houtil.
Qed.

Lemma for_each_ext {A} (xs : list A) (f g : A -> W unit) (ws : Worksheet) :
  (forall x w, In x xs -> f x w = g x w) -> for_each xs f ws = for_each xs g ws.
Proof.
  revert ws. induction xs as [|x xs IH]; intros ws H; simpl; [done|].
  unfold bind. rewrite (H x ws) by (simpl; tauto).
  destruct (g x ws) as [[[]|e] w]; [|done]. apply IH. intros; apply H; simpl; tauto.
Qed.

Lemma slot_writes_keep_nil (df : Pd.DataFrame) (i : nat) (ws : Worksheet) :
  keep df = [] -> slot_writes df i ws = (Ok tt, ws).
Proof.
  intros Hk. unfold slot_writes, bind.
  by rewrite !(keep_nil_line_value df _ _ Hk).
Qed.

Lemma for_each_skip {A} (xs : list A) (f : A -> W unit) (ws : Worksheet) :
  (forall x w, In x xs -> f x w = (Ok tt, w)) -> for_each xs f ws = (Ok tt, ws).
Proof.
  revert ws. induction xs as [|x xs IH]; intros ws H; simpl; [done|].
  unfold bind. rewrite (H x ws) by (simpl; tauto). apply IH. intros; apply H; simpl; tauto.
Qed.

(** The grid loop only looks at the values of the five attributes. *)
Lemma fill_grid_line_values (df : Pd.DataFrame) (max_plan : Z) (ws : Worksheet) :
  fill_grid df max_plan ws =
    for_each (seq 0 (slots_used df max_plan)) (slot_writes df) ws.
Proof.
  unfold fill_grid. destruct (keep df) as [|k0 ks] eqn:Hk.
  - symmetry. apply for_each_skip. intros i w _. by apply slot_writes_keep_nil.
  - rewrite <- Hk.
    assert (Pd.len (Pd.rename (Pd.select df (keep df)) col_map) = Pd.len df) as ->.
    { unfold Pd.len. simpl. by rewrite length_map. }
    apply for_each_ext. intros i w Hi. apply in_seq in Hi.
    destruct (lookup_lt_is_Some_2 (Pd.rows df) i) as [r Hr].
    { unfold slots_used, Pd.len in Hi. lia. }
    by apply (fill_slot_line_values df i r).
Qed.

(** ** What the statements leave alone *)

Lemma keeps_merged_ret {A} (a : A) : keeps_merged (ret a).
Proof. by intros ws. Qed.

Lemma keeps_merged_raise {A} (e : exn) : keeps_merged (@raise A e).
Proof. by intros ws. Qed.

Lemma keeps_merged_bind {A B} (m : W A) (k : A -> W B) :
  keeps_merged m -> (forall a, keeps_merged (k a)) -> keeps_merged (bind m k).
Proof.
  intros Hm Hk ws. unfold bind. specialize (Hm ws).
  destruct (m ws) as [[a|e] w]; simpl in *; [|done].
  by rewrite Hk.
Qed.

Lemma keeps_merged_for_each {A} (xs : list A) (body : A -> W unit) :
  (forall x, keeps_merged (body x)) -> keeps_merged (for_each xs body).
Proof.
  intros Hb. induction xs as [|x xs IH]; simpl; [apply keeps_merged_ret|].
  apply keeps_merged_bind; [apply Hb|by intros _].
Qed.

Lemma keeps_merged_setitem (key : string) (v : value) : keeps_merged (setitem key v).
Proof.
  intros ws. unfold setitem. destruct (coordinate_to_tuple key); [|done].
  by destruct (is_merged_cell _ _).
Qed.

Lemma keeps_merged_write_scan (ranges : list CellRange) (coord : string) (v : value) :
  keeps_merged (write_scan ranges coord v).
Proof.
  induction ranges as [|rng rest IH]; simpl; [apply keeps_merged_setitem|].
  destruct (coordinate_to_tuple coord); [|apply keeps_merged_raise].
  destruct (range_contains rng p); [|done].
  destruct (anchor_coordinate rng); [apply keeps_merged_setitem|apply keeps_merged_raise].
Qed.

Lemma keeps_merged_write_into_merged (coord : string) (v : value) :
  keeps_merged (write_into_merged coord v).
Proof.
  intros ws. unfold write_into_merged.
  destruct v; try done; apply keeps_merged_write_scan.
Qed.

Lemma keeps_merged_write_slot (cs : list string) (i : nat) (v : value) :
  keeps_merged (write_slot cs i v).
Proof.
  unfold write_slot. destruct (notna v); [|apply keeps_merged_ret].
  destruct (cs !! i); [apply keeps_merged_setitem|apply keeps_merged_raise].
Qed.

Lemma keeps_merged_slot_writes (df : Pd.DataFrame) (i : nat) :
  keeps_merged (slot_writes df i).
Proof.
  unfold slot_writes.
  repeat (apply keeps_merged_bind; [apply keeps_merged_write_slot|intros _]).
  apply keeps_merged_write_slot.
Qed.

Lemma keeps_merged_fill_grid (df : Pd.DataFrame) (max_plan : Z) :
  keeps_merged (fill_grid df max_plan).
Proof.
  intros ws. rewrite fill_grid_line_values.
  apply keeps_merged_for_each. apply keeps_merged_slot_writes.
Qed.

Lemma keeps_merged_fill_header (asg : list (string * value)) :
  keeps_merged (fill_header asg).
Proof.
  apply keeps_merged_for_each. intros cv. apply keeps_merged_write_into_merged.
Qed.

Lemma writes_within_ret {A} (P : Z * Z -> Prop) (a : A) : writes_within P (ret a).
Proof. by intros ws c _. Qed.

Lemma writes_within_raise {A} (P : Z * Z -> Prop) (e : exn) :
  writes_within P (@raise A e).
Proof. by intros ws c _. Qed.

Lemma writes_within_bind {A B} (P : Z * Z -> Prop) (m : W A) (k : A -> W B) :
  writes_within P m -> (forall a, writes_within P (k a)) -> writes_within P (bind m k).
Proof.
  intros Hm Hk ws c Hc. unfold bind. specialize (Hm ws c Hc).
  destruct (m ws) as [[a|e] w]; simpl in *; [|done].
  by rewrite Hk.
Qed.

Lemma writes_within_for_each {A} (P : Z * Z -> Prop) (xs : list A) (body : A -> W unit) :
  (forall x, In x xs -> writes_within P (body x)) -> writes_within P (for_each xs body).
Proof.
  intros Hb. induction xs as [|x xs IH]; simpl; [apply writes_within_ret|].
  apply writes_within_bind; [apply Hb; simpl; tauto|intros _].
  apply IH. intros; apply Hb; simpl; tauto.
Qed.

Lemma writes_within_weaken {A} (P Q : Z * Z -> Prop) (m : W A) :
  (forall c, P c -> Q c) -> writes_within P m -> writes_within Q m.
Proof. intros HPQ Hm ws c Hc. apply Hm. auto. Qed.

Lemma writes_within_setitem (key : string) (v : value) :
  writes_within (fun c => coordinate_to_tuple key = Some c) (setitem key v).
Proof.
  intros ws c Hc. unfold setitem.
  destruct (coordinate_to_tuple key) as [rc|]; [|done].
  destruct (is_merged_cell _ _); [done|]. simpl.
  apply lookup_insert_ne. congruence.
Qed.

(** *** The coordinate built for an anchor names the anchor or nothing *)

Lemma coordinate_to_tuple_nonpositive_row (l : string) (r : Z) :
  all_letters l = true -> r <= 0 -> coordinate_to_tuple (l +:+ str_Z r) = None.
Proof.
  intros Hl Hr. unfold coordinate_to_tuple.
  assert (strip_dollar (l +:+ str_Z r) = l +:+ str_Z r) as ->.
  { destruct l as [|b l]; simpl in *.
    - destruct r as [|p|p]; try lia; reflexivity.
    - apply andb_prop in Hl as [Hb _]. by apply strip_dollar_letter. }
  destruct r as [|p|p]; try lia.
  - rewrite span_letters_app by done.
    destruct (column_index_from_string l); reflexivity.
  - unfold str_Z. simpl.
    rewrite span_letters_app by done.
    destruct (column_index_from_string l); [|done]. simpl.
    by destruct (NilEmpty.uint_of_string _).
Qed.

Lemma anchor_coordinate_sound (rng : CellRange) (a : string) (c : Z * Z) :
  anchor_coordinate rng = Some a -> coordinate_to_tuple a = Some c -> c = anchor rng.
Proof.
  unfold anchor_coordinate. intros Ha Hc.
  destruct (get_column_letter (min_col rng)) as [l|] eqn:Hl; [|done].
  injection Ha as <-.
  assert (1 <= min_col rng <= 18278) as Hcol.
  { unfold get_column_letter in Hl.
    destruct (Z.leb_spec 1 (min_col rng)); [|done].
    destruct (Z.leb_spec (min_col rng) 18278); [lia|done]. }
  destruct (get_column_letter_spec _ Hcol) as (l' & Hl' & Hall & _ & _).
  rewrite Hl in Hl'. injection Hl' as <-.
  destruct (Z.le_gt_cases 1 (min_row rng)) as [Hrow|Hrow].
  - destruct (anchor_coordinate_spec rng Hcol Hrow) as (a & Ha & Hp).
    unfold anchor_coordinate in Ha. rewrite Hl in Ha. injection Ha as <-. congruence.
  - rewrite coordinate_to_tuple_nonpositive_row in Hc by (done || lia). done.
Qed.

Lemma writes_within_write_scan (ranges : list CellRange) (coord : string) (v : value) :
  writes_within
    (fun c => exists rc, coordinate_to_tuple coord = Some rc /\ c.1 <= rc.1)
    (write_scan ranges coord v).
Proof.
  induction ranges as [|rng rest IH]; simpl.
  - eapply writes_within_weaken; [|apply writes_within_setitem].
    intros c Hc. exists c. split; [done|lia].
  - destruct (coordinate_to_tuple coord) as [rc|] eqn:Hp; [|apply writes_within_raise].
    destruct (range_contains rng rc) eqn:Hin; [|exact IH].
    destruct (anchor_coordinate rng) as [a|] eqn:Ha; [|apply writes_within_raise].
    eapply writes_within_weaken; [|apply writes_within_setitem].
    intros c Hc. simpl in Hc.
    rewrite (anchor_coordinate_sound rng a c Ha Hc).
    exists rc. split; [done|]. unfold range_contains in Hin.
    repeat (apply andb_prop in Hin as [Hin ?]). simpl. lia.
Qed.

Lemma writes_within_write_into_merged (coord : string) (v : value) :
  writes_within
    (fun c => exists rc, coordinate_to_tuple coord = Some rc /\ c.1 <= rc.1)
    (write_into_merged coord v).
Proof.
  intros ws c Hc. unfold write_into_merged.
  destruct v; try done; by apply writes_within_write_scan.
Qed.

Lemma writes_within_fill_header {rt : Runtime} (row : Pd.Series)
    (asg : list (string * value)) :
  assignments row = Ok asg -> writes_within output_area (fill_header asg).
Proof.
  intros Hasg. pose proof (assignments_keys row asg Hasg) as Hk.
  apply writes_within_for_each. intros cv Hin.
  rewrite List.Forall_forall in Hk. destruct (Hk cv Hin) as (rc & Hp & Hrow).
  eapply writes_within_weaken; [|apply writes_within_write_into_merged].
  intros c (rc' & Hp' & Hc). left. assert (rc' = rc) as -> by congruence. lia.
Qed.

Lemma writes_within_write_slot (a : attr) (i : nat) (v : value) :
  writes_within grid_cell (write_slot (attr_cells a) i v).
Proof.
  unfold write_slot. destruct (notna v); [|apply writes_within_ret].
  destruct (attr_cells a !! i) as [key|] eqn:Hk; [|apply writes_within_raise].
  assert (i < 6)%nat as Hi.
  { apply lookup_lt_Some in Hk. by destruct a. }
  destruct (attr_cells_lookup a i Hi) as (key' & Hk' & Hp).
  assert (key' = key) as -> by congruence.
  eapply writes_within_weaken; [|apply writes_within_setitem].
  intros c Hc. exists a, i. split; [done|congruence].
Qed.

Lemma writes_within_fill_grid (df : Pd.DataFrame) (max_plan : Z) :
  writes_within output_area (fill_grid df max_plan).
Proof.
  intros ws c Hc. rewrite fill_grid_line_values. revert ws c Hc.
  apply writes_within_for_each. intros i _.
  eapply writes_within_weaken; [intros c Hc; right; exact Hc|].
  unfold slot_writes.
  change plan_cells with (attr_cells Cote). change plus_cells with (attr_cells Plus).
  change minus_cells with (attr_cells Minus). change moyenne_cells with (attr_cells Moy).
  change tools_cells with (attr_cells Outil).
  repeat (apply writes_within_bind; [apply writes_within_write_slot|intros _]).
  apply writes_within_write_slot.
Qed.

(** ** What [populate_fiche] leaves alone *)

Lemma populate_fiche_memory {rt : Runtime}
    (df_gen df_lines : Pd.DataFrame) (template : Workbook) (row_index max_plan : Z)
    (wb' : Workbook) :
  (populate_fiche df_gen df_lines template row_index max_plan).2 = Some wb' ->
  wb' = template \/
  exists row ws asg,
    template !! SHEET = Some ws /\ assignments row = Ok asg /\
    wb' = <[SHEET := ((fill_header asg ;;; fill_grid df_lines max_plan) ws).2]> template.
Proof.
  unfold populate_fiche.
  destruct (Pd.empty df_gen); [done|].
  destruct (Pd.iloc df_gen row_index) as [row|]; [|done].
  destruct (template !! SHEET) as [ws|] eqn:Hws; [|intros [= <-]; by left].
  destruct (assignments row) as [asg|e] eqn:Hasg; [|intros [= <-]; by left].
  intros H. right. exists row, ws, asg. split; [done|]. split; [done|].
  destruct ((fill_header asg ;;; fill_grid df_lines max_plan) ws) as [[[]|e] w];
    simpl in *; congruence.
Qed.

(** X1. Whatever the inputs and however the call ends, the workbook
    [populate_fiche] holds in memory differs from the template at most in
    the sheet "Fiche de contrôle": every other sheet is the template's,
    no sheet is added, and the merged ranges of that sheet are the
    template's. *)
Theorem populate_fiche_keeps_other_sheets {rt : Runtime}
    (df_gen df_lines : Pd.DataFrame) (template : Workbook) (row_index max_plan : Z)
    (wb' : Workbook) :
  (populate_fiche df_gen df_lines template row_index max_plan).2 = Some wb' ->
  (forall title, title <> SHEET -> wb' !! title = template !! title) /\
  (template !! SHEET = None -> wb' = template) /\
  (forall ws', wb' !! SHEET = Some ws' ->
     exists ws, template !! SHEET = Some ws /\ merged_cells ws' = merged_cells ws).
Proof.
  intros H. apply populate_fiche_memory in H as [->|(row & ws & asg & Hws & Hasg & ->)].
  - split; [done|]. split; [done|]. intros ws' Hws'. by exists ws'.
  - split; [intros title Hne; by rewrite lookup_insert_ne|].
    split; [congruence|].
    intros ws' Hws'. rewrite lookup_insert_eq in Hws'. injection Hws' as <-.
    exists ws. split; [done|].
    apply keeps_merged_bind; [apply keeps_merged_fill_header|].
    intros _. apply keeps_merged_fill_grid.
Qed.

(** X2. Whatever the inputs, the template and the way the call ends, a
    cell of the sheet that is neither in rows 1 to 8 nor one of the
    thirty slot cells of the grid holds in memory what the template held:
    [populate_fiche] never writes outside the header block and the
    grid. *)
Theorem populate_fiche_writes_in_area {rt : Runtime}
    (df_gen df_lines : Pd.DataFrame) (template : Workbook) (row_index max_plan : Z)
    (wb' : Workbook) (ws ws' : Worksheet) (c : Z * Z) :
  (populate_fiche df_gen df_lines template row_index max_plan).2 = Some wb' ->
  template !! SHEET = Some ws ->
  wb' !! SHEET = Some ws' ->
  ~ output_area c ->
  cells ws' !! c = cells ws !! c.
Proof.
  intros H Hws Hws' Hc.
  apply populate_fiche_memory in H as [->|(row & w & asg & Hw & Hasg & ->)].
  - congruence.
  - rewrite lookup_insert_eq in Hws'. injection Hws' as <-.
    assert (w = ws) as -> by congruence.
    apply (writes_within_bind output_area); [by eapply writes_within_fill_header| |done].
    intros _. apply writes_within_fill_grid.
Qed.
(** X3. The sheet a ready call returns, cell by cell: a slot cell of one
    of the records placed holds the value of its attribute when that is
    not null; any other cell holds the value of the last assignment of
    the header that is not [None] and resolves to it, if there is one;
    and else what the template held.  So when two header coordinates
    resolve to one cell, the later assignment is the one that stays. *)
Theorem populate_fiche_cells {rt : Runtime}
    (df_gen df_lines : Pd.DataFrame) (template : Workbook) (row_index max_plan : Z)
    (row : Pd.Series) (ws : Worksheet) (asg : list (string * value)) :
  ready df_gen row_index template row ws asg ->
  max_plan <= 6 ->
  exists wb' ws',
    populate_fiche df_gen df_lines template row_index max_plan =
      (Ok (wb', file_name row), Some wb') /\
    wb' !! SHEET = Some ws' /\
    merged_cells ws' = merged_cells ws /\
    forall c,
      cells ws' !! c =
        match grid_value df_lines (slots_used df_lines max_plan) c with
        | Some v => Some v
        | None =>
            match header_value (merged_cells ws) asg c with
            | Some v => Some v
            | None => cells ws !! c
            end
        end.
Proof.
  intros Hready H6. eexists _, _.
  split; [by apply populate_fiche_ready|]. split; [apply lookup_insert_eq|].
  split; [by rewrite grid_result_merged, header_result_merged|].
  intros c. apply populated_sheet_cell.
Qed.

(** X4. Populating is idempotent: a ready call returns a workbook on
    which the same call, with that workbook as its template, returns the
    same workbook and the same file name. *)
Theorem populate_fiche_idempotent {rt : Runtime}
    (df_gen df_lines : Pd.DataFrame) (template : Workbook) (row_index max_plan : Z)
    (row : Pd.Series) (ws : Worksheet) (asg : list (string * value)) :
  ready df_gen row_index template row ws asg ->
  max_plan <= 6 ->
  exists wb' name,
    populate_fiche df_gen df_lines template row_index max_plan =
      (Ok (wb', name), Some wb') /\
    populate_fiche df_gen df_lines wb' row_index max_plan =
      (Ok (wb', name), Some wb').
Proof.
  intros Hready H6. eexists _, _.
  split; [by apply populate_fiche_ready|].
  pose proof Hready as [He Hrow Hws Ht Hg Hasg].
  rewrite (populate_fiche_ready df_gen df_lines _ row_index max_plan row
             (grid_result df_lines (slots_used df_lines max_plan) (header_result asg ws))
             asg); [|split; try done|done].
  - by rewrite populated_sheet_fixpoint, insert_insert_eq.
  - apply lookup_insert_eq.
  - destruct Ht as [Hv Hd].
    split; by rewrite grid_result_merged, header_result_merged.
  - intros a i Hi. rewrite grid_result_merged, header_result_merged. by apply Hg.
Qed.

(** ** The grid loop past the sixth slot and on merged cells *)

Lemma for_each_app {A} (xs ys : list A) (f : A -> W unit) (ws : Worksheet) :
  for_each (xs ++ ys) f ws = bind (for_each xs f) (fun _ => for_each ys f) ws.
Proof.
  revert ws. induction xs as [|x xs IH]; intros ws; simpl; [done|].
  unfold bind in *. destruct (f x ws) as [[[]|e] w]; [apply IH|done].
Qed.

Lemma write_slot_cases (a : attr) (i : nat) (v : value) (ws : Worksheet) :
  (i < 6)%nat ->
  write_slot (attr_cells a) i v ws =
    if isna v || negb (is_merged_cell (merged_cells ws) (slot_cell a i))
    then (Ok tt, put a i v ws)
    else (Raise AttributeError, ws).
Proof.
  intros Hi. unfold write_slot, put, notna.
  destruct (isna v); [done|]. simpl.
  destruct (attr_cells_lookup a i Hi) as (key & -> & Hp).
  unfold setitem. rewrite Hp. by destruct (is_merged_cell _ _).
Qed.

Lemma write_slot_beyond (a : attr) (i : nat) (v : value) (ws : Worksheet) :
  (6 <= i)%nat ->
  write_slot (attr_cells a) i v ws =
    (if isna v then Ok tt else Raise IndexError, ws).
Proof.
  intros Hi. unfold write_slot, notna. destruct (isna v); [done|]. simpl.
  rewrite lookup_ge_None_2; [done|]. by destruct a.
Qed.

Ltac name_slot_cells :=
  change plan_cells with (attr_cells Cote); change plus_cells with (attr_cells Plus);
  change minus_cells with (attr_cells Minus); change moyenne_cells with (attr_cells Moy);
  change tools_cells with (attr_cells Outil).

Lemma slot_writes_beyond (df : Pd.DataFrame) (i : nat) (ws : Worksheet) :
  (6 <= i)%nat ->
  slot_writes df i ws = (if null_recordb df i then Ok tt else Raise IndexError, ws).
Proof.
  intros Hi. unfold slot_writes, null_recordb, bind. name_slot_cells. simpl.
  rewrite (write_slot_beyond Cote) by done.
  destruct (isna (line_value df i Cote)); [|done].
  rewrite (write_slot_beyond Plus) by done.
  destruct (isna (line_value df i Plus)); [|done].
  rewrite (write_slot_beyond Minus) by done.
  destruct (isna (line_value df i Minus)); [|done].
  rewrite (write_slot_beyond Moy) by done.
  destruct (isna (line_value df i Moy)); [|done].
  rewrite (write_slot_beyond Outil) by done.
  by destruct (isna (line_value df i Outil)).
Qed.

Lemma for_each_beyond (df : Pd.DataFrame) (xs : list nat) (ws : Worksheet) :
  (forall x, In x xs -> (6 <= x)%nat) ->
  for_each xs (slot_writes df) ws =
    (if forallb (null_recordb df) xs then Ok tt else Raise IndexError, ws).
Proof.
  induction xs as [|x xs IH]; intros H; simpl; [done|].
  unfold bind. rewrite slot_writes_beyond by (apply H; simpl; tauto).
  destruct (null_recordb df x); [|done]. apply IH. intros; apply H; simpl; tauto.
Qed.

Lemma slot_writes_spec (df : Pd.DataFrame) (i : nat) (ws : Worksheet) :
  (i < 6)%nat -> grid_unmerged ws ->
  slot_writes df i ws = (Ok tt, slot_result df i ws).
Proof.
  intros Hi Hg. unfold slot_writes, slot_result, bind. name_slot_cells.
  rewrite write_slot_spec by done.
  do 4 (rewrite write_slot_spec by auto using grid_unmerged_put).
  reflexivity.
Qed.

Lemma for_each_slot_writes (df : Pd.DataFrame) (s n : nat) (ws : Worksheet) :
  (s + n <= 6)%nat -> grid_unmerged ws ->
  for_each (seq s n) (slot_writes df) ws =
    (Ok tt, foldl (fun w i => slot_result df i w) ws (seq s n)).
Proof.
  revert s ws. induction n as [|n IH]; intros s ws H6 Hg; simpl; [done|].
  unfold bind. rewrite slot_writes_spec by (done || lia).
  apply IH; [lia|by apply grid_unmerged_slot].
Qed.

Lemma fill_grid_capacity (df : Pd.DataFrame) (max_plan : Z) (ws : Worksheet) :
  grid_unmerged ws ->
  fill_grid df max_plan ws =
    (if forallb (null_recordb df) (seq 6 (slots_used df max_plan - 6))
     then Ok tt else Raise IndexError,
     grid_result df (Nat.min (slots_used df max_plan) 6) ws).
Proof.
  intros Hg. rewrite fill_grid_line_values.
  set (k := slots_used df max_plan).
  replace k with (Nat.min k 6 + (k - 6))%nat at 1 by lia.
  rewrite seq_app, for_each_app. unfold bind.
  rewrite for_each_slot_writes by (done || lia). fold (grid_result df (Nat.min k 6) ws).
  destruct (decide (k <= 6)%nat) as [Hk|Hk].
  - replace (k - 6)%nat with 0%nat by lia. reflexivity.
  - replace (0 + Nat.min k 6)%nat with 6%nat by lia.
    apply for_each_beyond. intros x Hx. apply in_seq in Hx. lia.
Qed.

(** X5. On a sheet whose grid is made of plain cells the loop fills the
    first six slots at most.  A record past the sixth makes it raise
    [IndexError] exactly when one of its five values is not null, since
    the missing coordinate is looked up only for a value to write; in
    both cases the sheet is left with the slots of the first
    [min(capacity, n, 6)] records filled. *)
Theorem fill_grid_past_sixth_slot (df : Pd.DataFrame) (max_plan : Z) (ws : Worksheet) :
  grid_unmerged ws ->
  fill_grid df max_plan ws =
    (if forallb (null_recordb df) (seq 6 (slots_used df max_plan - 6))
     then Ok tt else Raise IndexError,
     grid_result df (Nat.min (slots_used df max_plan) 6) ws).
Proof.
  intros Hg. rewrite fill_grid_line_values.
  set (k := slots_used df max_plan).
  replace k with (Nat.min k 6 + (k - 6))%nat at 1 by lia.
  rewrite seq_app, for_each_app. unfold bind.
  rewrite for_each_slot_writes by (done || lia). fold (grid_result df (Nat.min k 6) ws).
  destruct (decide (k <= 6)%nat) as [Hk|Hk].
  - replace (k - 6)%nat with 0%nat by lia. reflexivity.
  - replace (0 + Nat.min k 6)%nat with 6%nat by lia.
    apply for_each_beyond. intros x Hx. apply in_seq in Hx. lia.
Qed.

Lemma slot_writes_outcome (df : Pd.DataFrame) (i : nat) (ws : Worksheet) :
  (i < 6)%nat ->
  (slot_writes df i ws).1 =
    if slot_writable (merged_cells ws) df i then Ok tt else Raise AttributeError.
Proof.
  intros Hi. unfold slot_writes, slot_writable, bind. name_slot_cells. simpl.
  rewrite (write_slot_cases Cote) by done.
  destruct (isna (line_value df i Cote) || _); [|done].
  rewrite (write_slot_cases Plus), put_merged by done.
  destruct (isna (line_value df i Plus) || _); [|done].
  rewrite (write_slot_cases Minus), !put_merged by done.
  destruct (isna (line_value df i Minus) || _); [|done].
  rewrite (write_slot_cases Moy), !put_merged by done.
  destruct (isna (line_value df i Moy) || _); [|done].
  rewrite (write_slot_cases Outil), !put_merged by done.
  by destruct (isna (line_value df i Outil) || _).
Qed.

Lemma for_each_outcome (df : Pd.DataFrame) (xs : list nat) (ws : Worksheet) :
  (forall x, In x xs -> (x < 6)%nat) ->
  (for_each xs (slot_writes df) ws).1 =
    if forallb (slot_writable (merged_cells ws) df) xs then Ok tt
    else Raise AttributeError.
Proof.
  revert ws. induction xs as [|x xs IH]; intros ws H; simpl; [done|].
  unfold bind.
  pose proof (slot_writes_outcome df x ws (H x (or_introl eq_refl))) as Ho.
  pose proof (keeps_merged_slot_writes df x ws) as Hm.
  destruct (slot_writes df x ws) as [o w]. simpl in Ho, Hm. subst o.
  destruct (slot_writable (merged_cells ws) df x); [|done]. simpl.
  rewrite <- Hm. apply IH. intros; apply H; simpl; tauto.
Qed.

(** X6. The grid is written without the resolver.  With a capacity of
    at most 6 the loop returns exactly when every value that is not null
    has a slot cell that is not a merged cell, and raises
    [AttributeError] otherwise: a null value never fails, whatever its
    cell. *)
Theorem fill_grid_merged_slot (df : Pd.DataFrame) (max_plan : Z) (ws : Worksheet) :
  max_plan <= 6 ->
  (fill_grid df max_plan ws).1 =
    if forallb (slot_writable (merged_cells ws) df) (seq 0 (slots_used df max_plan))
    then Ok tt else Raise AttributeError.
Proof.
  intros H6. rewrite fill_grid_line_values. apply for_each_outcome.
  intros x Hx. apply in_seq in Hx. pose proof (slots_used_le df max_plan H6). lia.
Qed.

(** X7. The grid depends on the line table only through the values of
    the five attributes of its records: two tables with as many records
    and the same values, whatever the order of their columns and
    whatever other columns they have, are written alike. *)
Theorem fill_grid_depends_on_line_values (df df' : Pd.DataFrame) (max_plan : Z)
    (ws : Worksheet) :
  Pd.len df = Pd.len df' ->
  (forall i a, line_value df i a = line_value df' i a) ->
  fill_grid df max_plan ws = fill_grid df' max_plan ws.
Proof.
  intros Hlen Hv. rewrite !fill_grid_line_values.
  unfold slots_used. rewrite Hlen. apply for_each_ext.
  intros i w _. unfold slot_writes. by rewrite !Hv.
Qed.

(** ** When [populate_fiche] returns *)

Lemma assignments_creation_date {rt : Runtime} (row : Pd.Series) :
  (exists asg, assignments row = Ok asg) <-> (exists d, creation_date row = Ok d).
Proof.
  unfold assignments. destruct (creation_date row) as [d|e]; split; intros [x H];
    try discriminate; eauto.
Qed.

(** X8. On a template whose sheet respects the contract (merged ranges
    that do not overlap, a grid of plain cells), [populate_fiche] returns
    a document exactly when the general table is not empty, holds the row
    asked for, the creation date of that row is null or converts (to
    [NaT], or to a timestamp whose date [datetime.date] can hold), the
    template has the sheet, and every line record past the sixth that the
    capacity admits is without a value.  Nothing else makes it raise. *)
Theorem populate_fiche_returns_iff {rt : Runtime}
    (df_gen df_lines : Pd.DataFrame) (template : Workbook) (row_index max_plan : Z) :
  (forall ws, template !! SHEET = Some ws -> template_contract ws /\ grid_unmerged ws) ->
  (exists out, (populate_fiche df_gen df_lines template row_index max_plan).1 = Ok out) <->
  Pd.empty df_gen = false /\
  (exists row d, Pd.iloc df_gen row_index = Some row /\ creation_date row = Ok d) /\
  is_Some (template !! SHEET) /\
  forallb (null_recordb df_lines) (seq 6 (slots_used df_lines max_plan - 6)) = true.
Proof.
  intros Hct. unfold populate_fiche.
  destruct (Pd.empty df_gen); [split; [intros [? [=]]|intros [[=] _]]|].
  destruct (Pd.iloc df_gen row_index) as [row|];
    [|split; [intros [? [=]]|intros (_ & (? & ? & [=] & _) & _)]].
  destruct (template !! SHEET) as [ws|] eqn:Hws;
    [|split; [intros [? [=]]|intros (_ & _ & [? [=]] & _)]].
  destruct (Hct ws eq_refl) as [Ht Hg].
  destruct (assignments row) as [asg|e] eqn:Hasg.
  - unfold bind.
    rewrite (fill_header_spec asg ws Ht (assignments_keys row asg Hasg)).
    rewrite fill_grid_capacity
      by (intros a i Hi; rewrite header_result_merged; by apply Hg).
    destruct (forallb _ _); simpl.
    + split; [intros _|eauto].
      split; [done|]. split; [|by split; [eauto|]].
      destruct (proj1 (assignments_creation_date row)) as [d Hd]; eauto.
    + split; [intros [? [=]]|intros (_ & _ & _ & [=])].
  - split; [intros [? [=]]|].
    intros (_ & (row' & d & [= <-] & Hd) & _). exfalso.
    destruct (proj2 (assignments_creation_date row)) as [asg Hasg']; [eauto|]. congruence.
Qed.

(** ** [write_into_merged] outside the contract *)

Lemma write_scan_first (pre post : list CellRange) (rng : CellRange)
    (coord : string) (rc : Z * Z) (v : value) (ws : Worksheet) :
  coordinate_to_tuple coord = Some rc ->
  (forall r, In r pre -> range_contains r rc = false) ->
  range_contains rng rc = true ->
  write_scan (pre ++ rng :: post)%list coord v ws =
    match anchor_coordinate rng with
    | Some a => setitem a v ws
    | None => (Raise (ValueError "Invalid column index"), ws)
    end.
Proof.
  intros Hp Hpre Hrng. induction pre as [|r pre IH]; simpl; rewrite Hp.
  - rewrite Hrng. by destruct (anchor_coordinate rng).
  - rewrite (Hpre r) by (simpl; tauto). apply IH. intros; apply Hpre; simpl; tauto.
Qed.

(** X9. When merged ranges overlap, the first range in the order of
    iteration that contains the coordinate decides: the value goes to
    the top-left cell of that range, and the call raises
    [AttributeError], leaving the sheet as it was, when that cell is
    itself a merged cell of another range. *)
Theorem write_into_merged_first_match (ws : Worksheet) (coord : string) (rc : Z * Z)
    (v : value) (pre post : list CellRange) (rng : CellRange) :
  merged_cells ws = (pre ++ rng :: post)%list ->
  coordinate_to_tuple coord = Some rc ->
  v <> VNone ->
  (forall r, In r pre -> range_contains r rc = false) ->
  range_contains rng rc = true ->
  valid_anchor rng ->
  write_into_merged coord v ws =
    if is_merged_cell (merged_cells ws) (anchor rng)
    then (Raise AttributeError, ws)
    else (Ok tt, set_cell (anchor rng) v ws).
Proof.
  intros Hm Hp Hv Hpre Hrng [Hc Hr].
  assert (write_into_merged coord v ws = write_scan (merged_cells ws) coord v ws) as ->.
  { unfold write_into_merged. by destruct v. }
  rewrite Hm at 1. rewrite (write_scan_first pre post rng coord rc v ws Hp Hpre Hrng).
  destruct (anchor_coordinate_spec rng Hc Hr) as (a & -> & Ha).
  unfold setitem. by rewrite Ha.
Qed.

Lemma letter_not_foreign (a : ascii) : is_letter a = true -> foreign_char a = false.
Proof.
  intros H. unfold foreign_char. rewrite H. simpl. apply andb_false_r.
Qed.

Lemma strip_dollar_cases (s : string) :
  strip_dollar s = s \/ s = String "$" (strip_dollar s).
Proof.
  destruct s as [|a r]; [by left|].
  destruct a as [[] [] [] [] [] [] [] []]; simpl; auto.
Qed.

Lemma strip_dollar_foreign (s : string) :
  has_foreign_char (strip_dollar s) = has_foreign_char s.
Proof.
  destruct (strip_dollar_cases s) as [->|E]; [done|].
  rewrite E at 2. reflexivity.
Qed.

Lemma span_letters_foreign (s l d : string) :
  span_letters s = (l, d) -> has_foreign_char d = has_foreign_char s.
Proof.
  revert l d. induction s as [|a r IH]; intros l d; simpl.
  - by intros [= <- <-].
  - destruct (is_letter a) eqn:Ea.
    + destruct (span_letters r) as [l' d'] eqn:E. intros [= <- <-].
      rewrite (letter_not_foreign a Ea). simpl. by apply (IH l').
    + by intros [= <- <-].
Qed.

Lemma uint_of_char_foreign (a : ascii) (d : option Decimal.uint) (u : Decimal.uint) :
  uint_of_char a d = Some u -> foreign_char a = false /\ is_Some d.
Proof.
  destruct d as [d|]; [|by destruct a as [[] [] [] [] [] [] [] []]].
  destruct a as [[] [] [] [] [] [] [] []]; simpl; try discriminate;
    intros _; split; try reflexivity; by eexists.
Qed.

Lemma uint_of_string_foreign (s : string) (u : Decimal.uint) :
  NilEmpty.uint_of_string s = Some u -> has_foreign_char s = false.
Proof.
  revert u. induction s as [|a r IH]; intros u; simpl; [done|].
  intros H. apply uint_of_char_foreign in H as [-> [u' Hu]].
  simpl. by apply (IH u').
Qed.

(** A key with a character outside the reference grammar is no cell
    reference. *)
Lemma foreign_coordinate (coord : string) :
  has_foreign_char coord = true -> coordinate_to_tuple coord = None.
Proof.
  intros H. unfold coordinate_to_tuple.
  destruct (span_letters (strip_dollar coord)) as [cs rest] eqn:E.
  destruct (column_index_from_string cs); [|done].
  destruct (NilEmpty.uint_of_string (strip_dollar rest)) as [u|] eqn:Eu; [|done].
  apply uint_of_string_foreign in Eu. rewrite strip_dollar_foreign in Eu.
  rewrite (span_letters_foreign _ _ _ E), strip_dollar_foreign in Eu. congruence.
Qed.

(** X10. The test for [None] comes first: with a key that names no
    sheet and holds a character the reference grammar of openpyxl cannot
    match (a space, a hyphen, a dot, ...), [write_into_merged] returns
    without a word for [None] and raises [ValueError] for any other
    value, whatever ranges the sheet has merged; the sheet is left as it
    was in both cases. *)
Theorem write_into_merged_invalid_coordinate (coord : string) (v : value)
    (ws : Worksheet) :
  rejected_key coord = true ->
  write_into_merged coord VNone ws = (Ok tt, ws) /\
  (v <> VNone -> write_into_merged coord v ws = (Raise (ValueError coord), ws)).
Proof.
  intros Hk. apply andb_prop in Hk as [Hk _]. apply foreign_coordinate in Hk.
  split; [done|]. intros Hv.
  rewrite write_into_merged_bad_coordinate by done.
  by rewrite bool_decide_eq_false_2.
Qed.

(** X11. The coordinate string [write_into_merged] builds for the
    anchor of a range reads back as the top-left cell of the range
    whenever that corner is a cell (a column from 1 to 18278, a row from
    1 on), and it never reads back as any other cell. *)
Theorem anchor_coordinate_round_trip (rng : CellRange) :
  (valid_anchor rng ->
     exists a, anchor_coordinate rng = Some a /\
               coordinate_to_tuple a = Some (min_row rng, min_col rng)) /\
  (forall a c, anchor_coordinate rng = Some a -> coordinate_to_tuple a = Some c ->
     c = (min_row rng, min_col rng)).
Proof.
  split.
  - intros [Hc Hr]. by apply anchor_coordinate_spec.
  - intros a c. apply anchor_coordinate_sound.
Qed.

(** ** The script around [populate_fiche] *)

Section Script.
Context {rt : Runtime} {host : App.Host}.

Lemma process_upload_files (p : App.Page) (up : App.Upload) :
  App.files (App.process_upload p up) = delete (App.tmp_name up) (App.files p).
Proof.
  unfold App.process_upload. simpl.
  assert (forall p2 : App.Page,
            App.files p2 = <[App.tmp_name up := App.up_data up]> (App.files p) ->
            delete (App.tmp_name up) (App.files p2) =
            delete (App.tmp_name up) (App.files p)) as H.
  { intros p2 ->. apply delete_insert_eq. }
  apply H.
  destruct (App.populate_fiche_path _ _) as [[file name]|e]; [|done].
  by destruct (App.accepts_key _ _).
Qed.

Lemma process_upload_page (p : App.Page) (up : App.Upload) :
  App.events (App.process_upload p up) =
    (App.events p ++ (App.block (App.keys p) up).1)%list /\
  App.keys (App.process_upload p up) = (App.block (App.keys p) up).2.
Proof.
  unfold App.process_upload, App.block, App.populate_fiche_path. simpl.
  rewrite lookup_insert_eq.
  destruct (App.populate_fiche_bytes (App.up_data up)) as [[file name]|e]; simpl.
  - destruct (App.accepts_key (App.keys p) _); simpl;
      by rewrite <- !app_assoc.
  - done.
Qed.

Lemma foldl_process_upload (uploaded : list App.Upload) (p : App.Page) :
  App.events (foldl App.process_upload p uploaded) =
    (App.events p ++ App.blocks (App.keys p) uploaded)%list /\
  forall path,
    App.files (foldl App.process_upload p uploaded) !! path =
      if decide (path ∈ map App.tmp_name uploaded) then None
      else App.files p !! path.
Proof.
  revert p. induction uploaded as [|up rest IH]; intros p.
  - simpl. split; [by rewrite app_nil_r|done].
  - cbn [foldl App.blocks map].
    destruct (IH (App.process_upload p up)) as [Hev Hfs].
    destruct (process_upload_page p up) as [He Hk].
    split.
    + by rewrite Hev, He, Hk, <- app_assoc.
    + intros path. rewrite Hfs, process_upload_files.
      destruct (decide (path = App.tmp_name up)) as [->|Hne].
      * rewrite lookup_delete_eq. repeat case_decide; try done.
        all: exfalso; match goal with
             | H : ~ (_ ∈ _ :: _) |- _ => apply H; apply elem_of_cons; auto
             end.
      * rewrite lookup_delete_ne by done. repeat case_decide; try done.
        all: exfalso; match goal with
             | H : ~ (_ ∈ _ :: _) |- _ => apply H; apply elem_of_cons; auto
             | H : _ ∈ _ :: _ |- _ => apply elem_of_cons in H as [?|?]; done
             end.
Qed.

(** X12. After the script has run, no temporary input file is left: the
    output directory holds the files it held before, less every file
    named as the temporary copy of an upload, whether the upload was
    populated or failed, so a file that had such a name before the run is
    gone as well. *)
Theorem run_removes_temporary_files (uploaded : list App.Upload) (p : App.Page)
    (path : string) :
  App.files (App.run uploaded p) !! path =
    if decide (path ∈ map App.tmp_name uploaded) then None
    else App.files p !! path.
Proof.
  destruct uploaded as [|up rest].
  - reflexivity.
  - unfold App.run.
    change (App.files (App.emit ?e ?q)) with (App.files q).
    by rewrite (proj2 (foldl_process_upload (up :: rest) _) path).
Qed.

(** X13. The page of a run over one upload or more: a divider, the
    heading, then one block per upload in their order, and the closing
    message.  The block of an upload is fixed by the bytes of that upload
    and the widget keys taken before it, not by what the output directory
    holds nor by the other uploads: the error of a failed upload, or the
    success message followed by the download button (or by the error of
    the button, when Streamlit refuses its key).  A failed upload does
    not stop the ones after it. *)
Theorem run_page (uploaded : list App.Upload) (p : App.Page) :
  uploaded <> [] ->
  App.events (App.run uploaded p) =
    (App.events p ++ [App.Divider; App.Subheader "Résultats"] ++
     App.blocks (App.keys p) uploaded ++
     [App.Info "Toutes les fiches ont été générées "])%list.
Proof.
  destruct uploaded as [|up rest]; [done|]. intros _.
  unfold App.run.
  change (App.events (App.emit ?e ?q)) with (App.events q ++ [e])%list.
  rewrite (proj1 (foldl_process_upload (up :: rest) _)).
  change (App.events (App.emit ?e ?q)) with (App.events q ++ [e])%list.
  change (App.keys (App.emit ?e ?q)) with (App.keys q).
  change (App.events (App.emit ?e ?q)) with (App.events q ++ [e])%list.
  change (App.keys (App.emit ?e ?q)) with (App.keys q).
  rewrite <- !app_assoc. reflexivity.
Qed.

(** X14. When every upload of a run fails, the page shows one error per
    upload, in their order, no success message and no download button,
    and still ends with the message that all sheets were generated. *)
Theorem run_all_failed (uploaded : list App.Upload) (p : App.Page) :
  uploaded <> [] ->
  Forall (fun up => exists e, App.populate_fiche_bytes (App.up_data up) = App.Failed e)
    uploaded ->
  exists errors,
    Forall2 (fun up e => App.populate_fiche_bytes (App.up_data up) = App.Failed e)
      uploaded errors /\
    App.events (App.run uploaded p) =
      (App.events p ++ [App.Divider; App.Subheader "Résultats"] ++
       zip_with (fun up e => App.ErrorMessage (App.up_name up) e) uploaded errors ++
       [App.Info "Toutes les fiches ont été générées "])%list.
Proof.
  intros Hne Hall.
  destruct uploaded as [|up0 rest0]; [done|]. clear Hne.
  unfold App.run.
  change (App.events (App.emit ?e ?q)) with (App.events q ++ [e])%list.
  rewrite (proj1 (foldl_process_upload (up0 :: rest0) _)).
  change (App.events (App.emit ?e ?q)) with (App.events q ++ [e])%list.
  change (App.keys (App.emit ?e ?q)) with (App.keys q).
  change (App.events (App.emit ?e ?q)) with (App.events q ++ [e])%list.
  change (App.keys (App.emit ?e ?q)) with (App.keys q).
  generalize (App.keys p) as ks. intros ks.
  assert (exists errors,
            Forall2 (fun up e => App.populate_fiche_bytes (App.up_data up) = App.Failed e)
              (up0 :: rest0) errors /\
            App.blocks ks (up0 :: rest0) =
              zip_with (fun up e => App.ErrorMessage (App.up_name up) e)
                (up0 :: rest0) errors) as (errors & HF & Hb).
  { revert ks. induction Hall as [|up rest [e He] _ IH]; intros ks.
    - exists []. by split.
    - destruct (IH ks) as (errors & HF & Hb).
      exists (e :: errors). split; [by constructor|].
      simpl. unfold App.block. rewrite He. simpl. by rewrite Hb. }
  exists errors. split; [done|]. rewrite Hb. rewrite <- !app_assoc. reflexivity.
Qed.

End Script.

(** ** The renamed line table and the row index *)

(** X15. Reading an attribute under its short key from
    [df_lines[keep].rename(columns=col_map)] gives what the record has in
    the column of the source table, and [None] when the source table has
    no such column, also when it has a column named like the short
    key. *)
Theorem renamed_table_get (df : Pd.DataFrame) (i : nat) (a : attr) (r : list value) :
  Pd.rows df !! i = Some r ->
  exists s,
    Pd.iloc (Pd.rename (Pd.select df (keep df)) col_map) (Z.of_nat i) = Some s /\
    Pd.get s (attr_key a) = Pd.get (Pd.mkSeries (Pd.columns df) r) (attr_column a) /\
    (Pd.has_column df (attr_column a) = false -> Pd.get s (attr_key a) = VNone).
Proof.
  intros Hr. destruct (renamed_get df i a r Hr) as (s & Hs & Hget).
  exists s. split; [done|].
  assert (line_value df i a = Pd.get (Pd.mkSeries (Pd.columns df) r) (attr_column a))
    as Hl.
  { unfold line_value. by rewrite iloc_nat, Hr. }
  split; [congruence|].
  intros Hc. by rewrite Hget, absent_column_line_value.
Qed.

Lemma iloc_None (df : Pd.DataFrame) (i : Z) :
  Pd.iloc df i = None <-> ~ (- Pd.len df <= i < Pd.len df).
Proof.
  unfold Pd.iloc. cbv zeta.
  destruct (Z.ltb_spec i 0).
  - destruct (Z.leb_spec 0 (Pd.len df + i)); simpl.
    + destruct (Z.ltb_spec (Pd.len df + i) (Pd.len df)); [|lia].
      split; [|lia]. intros Hn. exfalso.
      destruct (lookup_lt_is_Some_2 (Pd.rows df) (Z.to_nat (Pd.len df + i))) as [r Hr].
      { unfold Pd.len in *. lia. }
      by rewrite Hr in Hn.
    + split; [lia|done].
  - destruct (Z.leb_spec 0 i); [|lia]. simpl.
    destruct (Z.ltb_spec i (Pd.len df)).
    + split; [|lia]. intros Hn. exfalso.
      destruct (lookup_lt_is_Some_2 (Pd.rows df) (Z.to_nat i)) as [r Hr].
      { unfold Pd.len in *. lia. }
      by rewrite Hr in Hn.
    + split; [lia|done].
Qed.

(** X16. With a general table of [n] rows, [n] at least 1, the call
    raises [IndexError] before the template is loaded exactly when the
    row index is outside [-n, n): an index from [-n] to [-1] counts from
    the last row. *)
Theorem populate_fiche_row_index {rt : Runtime}
    (df_gen df_lines : Pd.DataFrame) (template : Workbook) (row_index max_plan : Z) :
  Pd.empty df_gen = false ->
  populate_fiche df_gen df_lines template row_index max_plan = (Raise IndexError, None)
  <-> ~ (- Pd.len df_gen <= row_index < Pd.len df_gen).
Proof.
  intros He. rewrite <- iloc_None. unfold populate_fiche. rewrite He.
  destruct (Pd.iloc df_gen row_index) as [row|]; [|done].
  split; [|done]. intros H. exfalso.
  destruct (template !! SHEET); [|done].
  destruct (assignments row); [|done].
  by destruct ((fill_header _ ;;; fill_grid _ _) _) as [[[]|?] ?].
Qed.

(** ** A creation date outside the calendar of [datetime] *)

(** X17. A creation date that [pd.to_datetime] converts to a timestamp
    [datetime.date] cannot hold (a year 0, say) makes [populate_fiche]
    raise the [NotImplementedError] of [Timestamp.date()]: this happens
    while the assignments are built, so the workbook in memory is still
    the template as loaded, and no document is returned. *)
Theorem populate_fiche_date_out_of_range {rt : Runtime}
    (df_gen df_lines : Pd.DataFrame) (template : Workbook) (row_index max_plan : Z)
    (row : Pd.Series) (ws : Worksheet) (t : Timestamp) :
  Pd.empty df_gen = false ->
  Pd.iloc df_gen row_index = Some row ->
  template !! SHEET = Some ws ->
  isna (Pd.get row "Date de création") = false ->
  to_datetime (Pd.get row "Date de création") = Some (Some t) ->
  date_in_range (ts_year t) (ts_month t) (ts_day t) = false ->
  populate_fiche df_gen df_lines template row_index max_plan =
    (Raise NotImplementedError, Some template).
Proof.
  intros He Hrow Hws Hna Hconv Hrange. unfold populate_fiche.
  rewrite He, Hrow, Hws. unfold assignments.
  rewrite (creation_date_present row Hna), Hconv.
  unfold timestamp_date. by rewrite Hrange.
Qed.

(** ** The further properties on sample inputs *)

(** The sheet "Notes" of a template is returned as it was. *)
Lemma populate_fiche_keeps_other_sheets_witness :
  Sample2.memory_of
    (populate_fiche (rt := Ref.iso_runtime) Sample.gen_ok Sample.lines3
       Sample2.template2 0 6) !! "Notes" = Some Sample2.notes.
Proof.
  destruct (populate_fiche_keeps_other_sheets (rt := Ref.iso_runtime)
              Sample.gen_ok Sample.lines3 Sample2.template2 0 6
              (Sample2.memory_of
                 (populate_fiche (rt := Ref.iso_runtime) Sample.gen_ok Sample.lines3
                    Sample2.template2 0 6)))
    as (Hother & _); [vm_compute; reflexivity|].
  rewrite Hother; [vm_compute; reflexivity|discriminate].
Defined.

(** Z20 is outside the header block and the grid. *)
Lemma populate_fiche_writes_in_area_witness :
  exists wb' ws',
    (populate_fiche (rt := Ref.iso_runtime) Sample.gen_ok Sample.lines3
       Sample.template 0 6).2 = Some wb' /\
    wb' !! SHEET = Some ws' /\
    cells ws' !! (20, 26) = cells Sample.sheet !! (20, 26).
Proof.
  eexists _, _.
  split; [rewrite (populate_fiche_ready _ _ _ _ _ _ _ _ sample_ready) by lia;
          reflexivity|].
  split; [apply lookup_insert_eq|].
  eapply (populate_fiche_writes_in_area (rt := Ref.iso_runtime)
            Sample.gen_ok Sample.lines3 Sample.template 0 6).
  - rewrite (populate_fiche_ready _ _ _ _ _ _ _ _ sample_ready) by lia. reflexivity.
  - reflexivity.
  - apply lookup_insert_eq.
  - intros [Hrow|(a & i & Hi & Hc)]; [simpl in Hrow; lia|].
    destruct a; simpl in Hc; injection Hc; lia.
Defined.

(** T1 holds the work-order number, I9 the dimension of the second
    record, H14 (no tool in that record) what the template held. *)
Lemma populate_fiche_cells_witness :
  exists wb' ws',
    populate_fiche (rt := Ref.iso_runtime) Sample.gen_ok Sample.lines3
      Sample.template 0 6 =
      (Ok (wb', "Fiche de Contrôle - OF n° 4711.xlsx"), Some wb') /\
    wb' !! SHEET = Some ws' /\
    cells ws' !! (1, 20) = Some (VInt 4711) /\
    cells ws' !! (1, 13) = Some (VStr "ACME") /\
    cells ws' !! (9, 9) = Some (VInt 20) /\
    cells ws' !! (14, 8) = cells Sample.sheet !! (14, 8).
Proof.
  destruct (populate_fiche_cells (rt := Ref.iso_runtime) Sample.gen_ok Sample.lines3
              Sample.template 0 6 _ _ _ sample_ready)
    as (wb' & ws' & Hrun & Hws & _ & Hcells); [lia|].
  exists wb', ws'. split; [exact Hrun|]. split; [exact Hws|].
  rewrite !Hcells. repeat split; vm_compute; reflexivity.
Defined.

Lemma populate_fiche_idempotent_witness :
  exists wb' name,
    populate_fiche (rt := Ref.iso_runtime) Sample.gen_ok Sample.lines3
      Sample.template 0 6 = (Ok (wb', name), Some wb') /\
    populate_fiche (rt := Ref.iso_runtime) Sample.gen_ok Sample.lines3
      wb' 0 6 = (Ok (wb', name), Some wb').
Proof.
  apply (populate_fiche_idempotent (rt := Ref.iso_runtime) Sample.gen_ok Sample.lines3
           Sample.template 0 6 _ _ _ sample_ready). lia.
Defined.

(** Seven records with values and a capacity of 7: [IndexError], six
    slots filled.  With a seventh record that is blank: no error. *)
Lemma fill_grid_past_sixth_slot_witness :
  fill_grid Sample.lines7 7 Sample.sheet =
    (Raise IndexError, grid_result Sample.lines7 6 Sample.sheet) /\
  fill_grid Sample2.lines7_blank 7 Sample.sheet =
    (Ok tt, grid_result Sample2.lines7_blank 6 Sample.sheet).
Proof.
  split.
  - apply (fill_grid_past_sixth_slot Sample.lines7 7 Sample.sheet sample_sheet_grid).
  - apply (fill_grid_past_sixth_slot Sample2.lines7_blank 7 Sample.sheet
             sample_sheet_grid).
Defined.

(** I9 is a merged cell of H9:I9: the second record cannot be placed. *)
Lemma fill_grid_merged_slot_witness :
  (fill_grid Sample.lines3 6 Sample2.sheet_merged_grid).1 = Raise AttributeError /\
  (fill_grid Sample.lines3 1 Sample2.sheet_merged_grid).1 = Ok tt.
Proof.
  split.
  - apply (fill_grid_merged_slot Sample.lines3 6 Sample2.sheet_merged_grid). lia.
  - apply (fill_grid_merged_slot Sample.lines3 1 Sample2.sheet_merged_grid). lia.
Defined.

Lemma fill_grid_depends_on_line_values_witness :
  fill_grid Sample.lines3 6 Sample.sheet =
  fill_grid Sample2.lines3_shuffled 6 Sample.sheet.
Proof.
  apply fill_grid_depends_on_line_values; [reflexivity|].
  intros i a. do 3 (destruct i as [|i]; [destruct a; reflexivity|]).
  unfold line_value. rewrite !iloc_nat. reflexivity.
Defined.

(** With the sample template: an empty general table does not return,
    a record dated 0000-01-01 does not return, the sample record does. *)
Lemma populate_fiche_returns_iff_witness :
  ~ (exists out,
       (populate_fiche (rt := Ref.iso_runtime) Sample.gen_empty Sample.lines3
          Sample.template 0 6).1 = Ok out) /\
  ~ (exists out,
       (populate_fiche (rt := Ref.iso_runtime) Sample2.gen_year0 Sample.lines3
          Sample.template 0 6).1 = Ok out) /\
  exists out,
    (populate_fiche (rt := Ref.iso_runtime) Sample.gen_ok Sample.lines3
       Sample.template 0 6).1 = Ok out.
Proof.
  assert (forall ws, Sample.template !! SHEET = Some ws ->
                     template_contract ws /\ grid_unmerged ws) as Hct.
  { intros ws Hws. unfold Sample.template in Hws.
    rewrite lookup_singleton_eq in Hws. injection Hws as <-.
    split; [apply sample_sheet_contract|apply sample_sheet_grid]. }
  split; [|split].
  - intros H.
    apply (populate_fiche_returns_iff (rt := Ref.iso_runtime) _ _ _ _ _ Hct) in H
      as [He _]. discriminate.
  - intros H.
    apply (populate_fiche_returns_iff (rt := Ref.iso_runtime) _ _ _ _ _ Hct) in H
      as (_ & (row & d & Hrow & Hd) & _).
    vm_compute in Hrow. injection Hrow as <-. vm_compute in Hd. discriminate.
  - apply (populate_fiche_returns_iff (rt := Ref.iso_runtime) _ _ _ _ _ Hct).
    split; [reflexivity|]. split; [|split; [by eexists|reflexivity]].
    exists (Sample.first_row Sample.gen_ok), (VDate (mkDate 2024 1 5)).
    split; reflexivity.
Defined.

(** N1 lies in M1:S1 and in K1:N2.  Met first, M1:S1 sends the write to
    M1, a merged cell of K1:N2: [AttributeError].  Met first, K1:N2
    sends it to K1, which can be written. *)
Lemma write_into_merged_first_match_witness :
  write_into_merged "N1" (VStr "ACME") Sample2.sheet_overlap =
    (Raise AttributeError, Sample2.sheet_overlap) /\
  write_into_merged "N1" (VStr "ACME") Sample2.sheet_overlap' =
    (Ok tt, set_cell (1, 11) (VStr "ACME") Sample2.sheet_overlap').
Proof.
  split.
  - apply (write_into_merged_first_match Sample2.sheet_overlap "N1" (1, 14)
             (VStr "ACME") [] [mkRange 11 1 14 2] Sample.client_range);
      try reflexivity; try discriminate; [intros r []|].
    split; simpl; lia.
  - apply (write_into_merged_first_match Sample2.sheet_overlap' "N1" (1, 14)
             (VStr "ACME") [] [Sample.client_range] (mkRange 11 1 14 2));
      try reflexivity; try discriminate; [intros r []|].
    split; simpl; lia.
Defined.

(** ["M-1"] holds a hyphen. *)
Lemma write_into_merged_invalid_coordinate_witness :
  write_into_merged "M-1" VNone Sample.sheet = (Ok tt, Sample.sheet) /\
  write_into_merged "M-1" VNaN Sample.sheet = (Raise (ValueError "M-1"), Sample.sheet).
Proof.
  destruct (write_into_merged_invalid_coordinate "M-1" VNaN Sample.sheet) as [H1 H2];
    [reflexivity|].
  split; [exact H1|apply H2; discriminate].
Defined.

(** The anchor of X2:Z3 is written as ["X2"]. *)
Lemma anchor_coordinate_round_trip_witness :
  exists a, anchor_coordinate Sample.date_range = Some a /\
            coordinate_to_tuple a = Some (2, 24).
Proof.
  apply (anchor_coordinate_round_trip Sample.date_range). split; simpl; lia.
Defined.

(** The temporary copy of [a.xlsx] is gone, with the file that had its
    name; the other file of the directory is kept. *)
Lemma run_removes_temporary_files_witness :
  App.files (App.run (rt := Ref.iso_runtime) (host := Sample2.host)
               Sample2.uploads_bad Sample2.used_page) !! "__tmp_input_a.xlsx" = None /\
  App.files (App.run (rt := Ref.iso_runtime) (host := Sample2.host)
               Sample2.uploads_bad Sample2.used_page) !! "fiche.xlsx" = Some "kept".
Proof.
  split; rewrite run_removes_temporary_files; vm_compute; reflexivity.
Defined.

(** A file that is not a workbook, then a good one: an error for the
    first, the success message and the button for the second. *)
Lemma run_page_witness :
  exists file,
    App.events (App.run (rt := Ref.iso_runtime) (host := Sample2.host)
                  Sample2.uploads_mixed Sample2.empty_page) =
      [ App.Divider; App.Subheader "Résultats";
        App.ErrorMessage "a.xlsx" (App.ReadFailed "File is not a zip file");
        App.Columns;
        App.Success "✅ Généré : `Fiche de Contrôle - OF n° 4711.xlsx`";
        App.DownloadButton "⬇️ Télécharger" file
          "Fiche de Contrôle - OF n° 4711.xlsx" App.XLSX_MIME
          "dl_Fiche de Contrôle - OF n° 4711.xlsx";
        App.Info "Toutes les fiches ont été générées " ].
Proof.
  eexists. rewrite run_page by discriminate. vm_compute. reflexivity.
Defined.

(** An empty general sheet and a file that is not a workbook: two
    errors, and the closing message all the same. *)
Lemma run_all_failed_witness :
  App.events (App.run (rt := Ref.iso_runtime) (host := Sample2.host)
                Sample2.uploads_bad Sample2.empty_page) =
    [ App.Divider; App.Subheader "Résultats";
      App.ErrorMessage "a.xlsx"
        (App.Populate (ValueError "Sheet 'Dossier Technique_general' is empty."));
      App.ErrorMessage "b.xlsx" (App.ReadFailed "File is not a zip file");
      App.Info "Toutes les fiches ont été générées " ].
Proof.
  destruct (run_all_failed (rt := Ref.iso_runtime) (host := Sample2.host)
              Sample2.uploads_bad Sample2.empty_page) as (errors & HF & Hev);
    [discriminate|repeat constructor; eexists; vm_compute; reflexivity|].
  rewrite Hev.
  apply Forall2_cons_inv_l in HF as (e1 & r1 & H1 & HF & ->).
  apply Forall2_cons_inv_l in HF as (e2 & r2 & H2 & HF & ->).
  apply Forall2_nil_inv_l in HF as ->.
  vm_compute in H1, H2. injection H1 as <-. injection H2 as <-. reflexivity.
Defined.

(** The dimension of the second record, read as ["cote"]; the table
    without tools gives [None] for ["outil"]. *)
Lemma renamed_table_get_witness :
  exists s,
    Pd.iloc (Pd.rename (Pd.select Sample.lines_no_tool (keep Sample.lines_no_tool))
               col_map) 1 = Some s /\
    Pd.get s "cote" = VInt 20 /\ Pd.get s "outil" = VNone.
Proof.
  destruct (renamed_table_get Sample.lines_no_tool 1 Cote
              [VInt 20; VFloat Sample.half; VFloat Sample.half; VInt 20] eq_refl)
    as (s & Hs & Hcote & _).
  destruct (renamed_table_get Sample.lines_no_tool 1 Outil
              [VInt 20; VFloat Sample.half; VFloat Sample.half; VInt 20] eq_refl)
    as (s' & Hs' & _ & Houtil).
  assert (s' = s) as -> by congruence.
  exists s. split; [exact Hs|]. split; [exact Hcote|]. apply Houtil. reflexivity.
Defined.

(** One general row: the index 1 is out of bounds, the index -1 is the
    row. *)
Lemma populate_fiche_row_index_witness :
  populate_fiche (rt := Ref.iso_runtime) Sample.gen_ok Sample.lines3
    Sample.template 1 6 = (Raise IndexError, None) /\
  populate_fiche (rt := Ref.iso_runtime) Sample.gen_ok Sample.lines3
    Sample.template (-1) 6 <> (Raise IndexError, None).
Proof.
  split.
  - apply populate_fiche_row_index; [reflexivity|]. unfold Pd.len. simpl. lia.
  - intros H. apply populate_fiche_row_index in H; [|reflexivity].
    apply H. unfold Pd.len. simpl. lia.
Defined.

(** The text 0000-01-01 converts to a timestamp of year 0, which has no
    [datetime.date]. *)
Lemma populate_fiche_date_out_of_range_witness :
  populate_fiche (rt := Ref.iso_runtime) Sample2.gen_year0 Sample.lines3
    Sample.template 0 6 = (Raise NotImplementedError, Some Sample.template).
Proof.
  apply (populate_fiche_date_out_of_range (rt := Ref.iso_runtime) Sample2.gen_year0
           Sample.lines3 Sample.template 0 6 (Sample.first_row Sample2.gen_year0)
           Sample.sheet (mkTimestamp 0 1 1 0 0 0 0 0)); reflexivity.
Defined.
